(** * mutwo.ext-isis: conversion of mutwo events to ISiS score files

    A shallow embedding of [mutwo/ext/converters/frontends/isis.py] and
    [isis_constants.py], followed by the properties of the converters. *)

From Stdlib Require Import ZArith NArith String Ascii List Lia.
From stdpp Require Import base strings list gmap pretty.

(** ** Python values *)

(** Python numbers as the converter uses them: durations are added when
    adjacent rests are tied, every number is rendered with [str], and
    integer literals appear in the defaults.  [num_of_float] is
    [float(z)]. *)
Class PyNumber (number : Type) := {
  num_add : number → number → number;
  num_str : number → string;
  num_of_int : Z → number;
  num_of_float : Z → number
}.

(** Exceptions that cross the converter. *)
Inductive exception :=
| AttributeError
| IndexError
| NotImplementedError
| FileNotFoundError
| OtherException (name : string).

Inductive result (A : Type) :=
| Ok (a : A)
| Raise (e : exception).
Arguments Ok {A} a.
Arguments Raise {A} e.

#[global] Instance exception_eq_dec : EqDecision exception.
Proof. solve_decision. Defined.

(** [" ".join(l)] and [", ".join(l)]. *)
Definition join (sep : string) (l : list string) : string := String.concat sep l.

(** [str.lower] on the ASCII range, which is all that option names use. *)
Definition lower_ascii (c : ascii) : ascii :=
  let n := N_of_ascii c in
  if ((65 <=? n) && (n <=? 90))%N then ascii_of_N (n + 32) else c.

Fixpoint lower (s : string) : string :=
  match s with
  | EmptyString => EmptyString
  | String c s' => String (lower_ascii c) (lower s')
  end.

(** [value.replace("\n", "\n\t")] *)
Definition newline : ascii := ascii_of_N 10.
Definition tab : ascii := ascii_of_N 9.

Fixpoint indent_newlines (s : string) : string :=
  match s with
  | EmptyString => EmptyString
  | String c s' =>
    if Ascii.eqb c newline then String newline (String tab (indent_newlines s'))
    else String c (indent_newlines s')
  end.

(** [value.replace("%%", "")] *)
Definition percent : ascii := ascii_of_N 37.

Fixpoint remove_escaped_percents (s : string) : string :=
  match s with
  | EmptyString => EmptyString
  | String c s' =>
    match s' with
    | EmptyString => String c EmptyString
    | String c' s'' =>
      if Ascii.eqb c percent && Ascii.eqb c' percent
      then remove_escaped_percents s''
      else String c (remove_escaped_percents s')
    end
  end.

(** Where the scan for the references [%(name)s] stands: outside of a
    reference, after its percent sign, in its name (with or without a
    character of the name read), after its closing bracket. *)
Inductive reference_scan :=
| Outside
| AfterPercent
| InName (read : bool)
| AfterName.

(** A percent sign is left when the matches of [%\(([^)]+)\)s] are taken
    out of [s]: a percent sign that does not start a reference stays, so
    the scan ends with [true] at the first percent sign that is not
    followed by a bracket, a name of one character at least, the closing
    bracket and an [s]. *)
Fixpoint percent_left (state : reference_scan) (s : string) : bool :=
  match s with
  | EmptyString =>
    match state with
    | Outside => false
    | _ => true
    end
  | String c s' =>
    match state with
    | Outside =>
      if Ascii.eqb c percent then percent_left AfterPercent s'
      else percent_left Outside s'
    | AfterPercent =>
      if Ascii.eqb c "("%char then percent_left (InName false) s' else true
    | InName read =>
      if Ascii.eqb c ")"%char
      then (if read then percent_left AfterName s' else true)
      else percent_left (InName true) s'
    | AfterName =>
      if Ascii.eqb c "s"%char then percent_left Outside s' else true
    end
  end.

(** The test of [BasicInterpolation.before_set]:
    [tmp = value.replace("%%", ""); tmp = _KEYCRE.sub("", tmp);
     "%" in tmp]. *)
Definition invalid_interpolation (value : string) : bool :=
  percent_left Outside (remove_escaped_percents value).

Section Isis.
Context {number : Type} `{PyNumber number}.

(** ** Parameters and events of mutwo, as far as the converter reads them *)

(** [parameters.abc.Pitch]: only [midi_pitch_number] is read. *)
Record Pitch := { midi_pitch_number : number }.

(** [parameters.abc.Volume]: only [amplitude] is read. *)
Record Volume := { amplitude : number }.

(** [parameters.volumes.DirectVolume(amplitude)] *)
Definition DirectVolume (a : number) : Volume := {| amplitude := a |}.

(** [events.basic.SimpleEvent] and its duck-typed subclasses: every simple
    event has a duration; the other attributes may be absent ([hasattr] is
    false), which is [None] here. *)
Record SimpleEvent := {
  duration : number;
  pitch_list : option (list Pitch);
  volume : option Volume;
  vowel : option string;
  consonant_tuple : option (list string)
}.

(** [events.basic.SimpleEvent(duration)] *)
Definition bare_event (d : number) : SimpleEvent :=
  {| duration := d; pitch_list := None; volume := None; vowel := None;
     consonant_tuple := None |}.

(** [event.duration = d] *)
Definition set_duration (e : SimpleEvent) (d : number) : SimpleEvent :=
  {| duration := d; pitch_list := pitch_list e; volume := volume e;
     vowel := vowel e; consonant_tuple := consonant_tuple e |}.

(** Events: a simple event, a [SequentialEvent] or a [SimultaneousEvent]
    of events (the last two are the [ComplexEvent]s). *)
#[warnings="-register-all"]
Inductive Event :=
| Simple (e : SimpleEvent)
| Sequential (children : list Event)
| Simultaneous (children : list Event).

(** [isinstance(event, events.abc.ComplexEvent)] *)
Definition is_complex (ev : Event) : bool :=
  match ev with
  | Simple _ => false
  | _ => true
  end.

(** Attribute access [event.name]: a missing attribute raises
    [AttributeError]. *)
Definition getattr {A : Type} (attribute : option A) : result A :=
  match attribute with
  | Some a => Ok a
  | None => Raise AttributeError
  end.

(** [sequence[0]] *)
Definition first_item {A : Type} (l : list A) : result A :=
  match l with
  | a :: _ => Ok a
  | [] => Raise IndexError
  end.

(** ** IsisScoreConverter *)

(** [ExtractedDataDict]: duration, consonants, vowel, pitch, volume. *)
Record ExtractedDataDict := {
  ed_duration : number;
  ed_consonant_tuple : list string;
  ed_vowel : string;
  ed_pitch : Pitch;
  ed_volume : Volume
}.

(** The pitch of [_extracted_data_dict_rest],
    [WesternPitch("c", -1, concert_pitch=440, concert_pitch_octave=4,
    concert_pitch_pitch_class=9)]: nine semitones and five octaves under
    the concert pitch a4 = midi 69, that is midi pitch number [0.0], the
    value that [test_convert_rest] expects. *)
Definition rest_pitch : Pitch := {| midi_pitch_number := num_of_float 0 |}.

(** [dict(duration=duration, **self._extracted_data_dict_rest)] *)
Definition _extracted_data_dict_rest (d : number) : ExtractedDataDict :=
  {| ed_duration := d;
     ed_consonant_tuple := [];
     ed_vowel := "_";
     ed_pitch := rest_pitch;
     ed_volume := DirectVolume (num_of_int 0) |}.

Record IsisScoreConverter := {
  _tempo : number;
  _global_transposition : Z;
  _default_sentence_loudness : option number;
  _n_events_per_line : Z;
  _is_simple_event_rest : SimpleEvent → bool;
  simple_event_to_consonant_tuple : SimpleEvent → result (list string);
  simple_event_to_vowel : SimpleEvent → result string;
  simple_event_to_pitch : SimpleEvent → result Pitch;
  simple_event_to_volume : SimpleEvent → result Volume
}.

(** The default arguments of [IsisScoreConverter.__init__]. *)
Definition default_simple_event_to_pitch (e : SimpleEvent) : result Pitch :=
  match getattr (pitch_list e) with
  | Ok l => first_item l
  | Raise x => Raise x
  end.

Definition default_simple_event_to_volume (e : SimpleEvent) : result Volume :=
  getattr (volume e).

Definition default_simple_event_to_vowel (e : SimpleEvent) : result string :=
  getattr (vowel e).

Definition default_simple_event_to_consonant_tuple (e : SimpleEvent)
  : result (list string) :=
  getattr (consonant_tuple e).

(** [not (hasattr(simple_event, "pitch_list") and simple_event.pitch_list)] *)
Definition default_is_simple_event_rest (e : SimpleEvent) : bool :=
  negb (match pitch_list e with
        | Some (_ :: _) => true
        | Some [] => false
        | None => false
        end).

(** [IsisScoreConverter()] *)
Definition default_score_converter : IsisScoreConverter :=
  {| _tempo := num_of_int 60;
     _global_transposition := 0;
     _default_sentence_loudness := None;
     _n_events_per_line := 5;
     _is_simple_event_rest := default_is_simple_event_rest;
     simple_event_to_consonant_tuple := default_simple_event_to_consonant_tuple;
     simple_event_to_vowel := default_simple_event_to_vowel;
     simple_event_to_pitch := default_simple_event_to_pitch;
     simple_event_to_volume := default_simple_event_to_volume |}.

(** One round of the loop of [_convert_simple_event]:
    [try: extracted = f(event)  except AttributeError: return rest]
    and then the rest of the loop with the extracted value. *)
Definition try_extract {A R : Type} (extracted : result A) (fallback : R)
    (continue : A → result R) : result R :=
  match extracted with
  | Ok a => continue a
  | Raise AttributeError => Ok fallback
  | Raise x => Raise x
  end.

(** [_convert_simple_event]; the loop runs over
    [_extraction_function_dict] in insertion order: consonant_tuple, vowel,
    pitch, volume.  The second argument (the absolute entry delay) is
    ignored by the source. *)
Definition _convert_simple_event (self : IsisScoreConverter)
    (simple_event_to_convert : SimpleEvent) : result (list ExtractedDataDict) :=
  let d := duration simple_event_to_convert in
  let rest := [_extracted_data_dict_rest d] in
  try_extract (simple_event_to_consonant_tuple self simple_event_to_convert) rest
    (fun consonants =>
  try_extract (simple_event_to_vowel self simple_event_to_convert) rest
    (fun vowel_ =>
  try_extract (simple_event_to_pitch self simple_event_to_convert) rest
    (fun pitch =>
  try_extract (simple_event_to_volume self simple_event_to_convert) rest
    (fun volume_ =>
  Ok [ {| ed_duration := d;
          ed_consonant_tuple := consonants;
          ed_vowel := vowel_;
          ed_pitch := pitch;
          ed_volume := volume_ |} ])))).

(** [_convert_simultaneous_event] *)
Definition _convert_simultaneous_event (_ : list Event)
  : result (list ExtractedDataDict) :=
  Raise NotImplementedError.

(** ** Tying adjacent rests *)

(** Modelled from the spec: [ComplexEvent.tie_by] of mutwo's core events is
    not part of these sources.  The pass scans the children from the left
    and examines each pair of neighbours that are both simple events (the
    [event_type_to_examine]); when [condition] holds for the pair the two
    are merged into one event, the first of the pair, whose duration
    becomes the sum of both, and the merged event is compared with its new
    neighbour; otherwise the scan moves on.  Nested complex events are tied
    in the same way.  With [mutate=False] the pass returns a new event and
    leaves its argument untouched. *)
Fixpoint tie_adjacent (condition : SimpleEvent → SimpleEvent → bool)
    (current : Event) (following : list Event) : list Event :=
  match following with
  | [] => [current]
  | next :: following' =>
    match current, next with
    | Simple event0, Simple event1 =>
      if condition event0 event1
      then tie_adjacent condition
             (Simple (set_duration event0
                        (num_add (duration event1) (duration event0))))
             following'
      else current :: tie_adjacent condition next following'
    | _, _ => current :: tie_adjacent condition next following'
    end
  end.

(** Modelled from the spec: the scan over all children of one complex
    event. *)
Definition tie_children (condition : SimpleEvent → SimpleEvent → bool)
    (children : list Event) : list Event :=
  match children with
  | [] => []
  | first :: following => tie_adjacent condition first following
  end.

(** Modelled from the spec: [tie_by] on an event; the complex events
    among the children are tied themselves, a simple event has nothing to
    tie. *)
Fixpoint tie_by (condition : SimpleEvent → SimpleEvent → bool) (ev : Event)
  : Event :=
  match ev with
  | Simple e => Simple e
  | Sequential children =>
    Sequential (tie_children condition (map (tie_by condition) children))
  | Simultaneous children =>
    Simultaneous (tie_children condition (map (tie_by condition) children))
  end.

(** The condition that [convert] hands to [tie_by]:
    [lambda event0, event1: is_rest(event0) and is_rest(event1)]. *)
Definition both_rest (self : IsisScoreConverter) (event0 event1 : SimpleEvent)
  : bool :=
  _is_simple_event_rest self event0 && _is_simple_event_rest self event1.

(** The first lines of [convert]: complex events are tied, a simple event
    is left as it is. *)
Definition tie_rests (self : IsisScoreConverter) (event_to_convert : Event)
  : Event :=
  if is_complex event_to_convert
  then tie_by (both_rest self) event_to_convert
  else event_to_convert.

(** ** Walking the event *)

(** Modelled from the spec: [EventConverter._convert_event] and
    [_convert_sequential_event] of mutwo's core converters are not part of
    these sources.  The walk dispatches on the kind of event: a simple
    event goes to [_convert_simple_event], a simultaneous event to
    [_convert_simultaneous_event], and the children of a sequential event
    are converted from left to right and their records concatenated; the
    first exception ends the walk. *)
Fixpoint _convert_event (self : IsisScoreConverter) (ev : Event)
  : result (list ExtractedDataDict) :=
  match ev with
  | Simple e => _convert_simple_event self e
  | Sequential children =>
    (fix convert_children (l : list Event) : result (list ExtractedDataDict) :=
       match l with
       | [] => Ok []
       | child :: l' =>
         match _convert_event self child with
         | Raise x => Raise x
         | Ok records =>
           match convert_children l' with
           | Raise x => Raise x
           | Ok records' => Ok (records ++ records')
           end
         end
       end) children
  | Simultaneous children => _convert_simultaneous_event children
  end.

(** The simple events of an event, from left to right. *)
Fixpoint simple_events (ev : Event) : list SimpleEvent :=
  match ev with
  | Simple e => [e]
  | Sequential children => concat (map simple_events children)
  | Simultaneous children => concat (map simple_events children)
  end.

(** An event is polyphonic when a simultaneous event occurs in it. *)
Fixpoint contains_simultaneous (ev : Event) : bool :=
  match ev with
  | Simple _ => false
  | Sequential children => existsb contains_simultaneous children
  | Simultaneous _ => true
  end.

(** ** The score file *)

(** Constants of [isis_constants.py]. *)
Definition ISIS_PATH : string := "isis.sh".
Definition SILENT_FLAG : string := "--quiet".
Definition SECTION_LYRIC_NAME : string := "lyrics".
Definition SECTION_SCORE_NAME : string := "score".

(** A Python [dict] with string keys, in insertion order. *)
Definition dict (V : Type) : Type := list (string * V).

(** [d[key]] and [key in d] *)
Fixpoint dict_get {V : Type} (d : dict V) (key : string) : option V :=
  match d with
  | [] => None
  | (k, v) :: d' => if String.eqb k key then Some v else dict_get d' key
  end.

(** [d.update({key: value})]: an existing key keeps its place. *)
Fixpoint dict_update {V : Type} (d : dict V) (key : string) (value : V)
  : dict V :=
  match d with
  | [] => [(key, value)]
  | (k, v) :: d' =>
    if String.eqb k key then (k, value) :: d'
    else (k, v) :: dict_update d' key value
  end.

(** The values that the converter stores in a section. *)
Inductive value :=
| IntValue (z : Z)
| NumberValue (n : number)
| StrValue (s : string).

(** [str(value)] *)
Definition str (v : value) : string :=
  match v with
  | IntValue z => pretty z
  | NumberValue n => num_str n
  | StrValue s => s
  end.

(** [configparser.ConfigParser] as the converter uses it: the first
    delimiter and the sections, each a dict of options.  When a section
    is assigned, option names pass through [optionxform] (lower case),
    values through [str] and then through the interpolation check, which
    refuses a percent sign that is neither doubled nor the start of a
    reference [%(name)s]. *)
Record ConfigParser := {
  _delimiters : string;
  _sections : dict (dict string)
}.

(** [configparser.ConfigParser(delimiters=delimiters)] *)
Definition new_ConfigParser (delimiters : string) : ConfigParser :=
  {| _delimiters := delimiters; _sections := [] |}.

Definition optionxform (name : string) : string := lower name.

(** [BasicInterpolation.before_set]: the value itself, or a
    [ValueError]. *)
Definition before_set (value : string) : result string :=
  if invalid_interpolation value then Raise (OtherException "ValueError")
  else Ok value.

(** [RawConfigParser.set] on the options of a section:
    [if value: value = self._interpolation.before_set(...)] and then the
    option is stored. *)
Definition set_option (options : dict string) (name value : string)
  : result (dict string) :=
  match match value with
        | EmptyString => Ok value
        | _ => before_set value
        end with
  | Ok checked => Ok (dict_update options name checked)
  | Raise x => Raise x
  end.

(** The loop of [read_dict] over the items of one section; the parser is
    strict, so a name that this call has stored already raises
    [DuplicateOptionError]. *)
Fixpoint read_options (options : dict string) (items : dict value)
  : result (dict string) :=
  match items with
  | [] => Ok options
  | item :: items' =>
    let key := optionxform (fst item) in
    match dict_get options key with
    | Some _ => Raise (OtherException "DuplicateOptionError")
    | None =>
      match set_option options key (str (snd item)) with
      | Ok options' => read_options options' items'
      | Raise x => Raise x
      end
    end
  end.

(** [config[section] = items], for a section other than the default
    section: the section is emptied or created and filled with the items.
    An exception leaves [convert] and with it the parser. *)
Definition setitem (config : ConfigParser) (section : string)
    (items : dict value) : result ConfigParser :=
  match read_options [] items with
  | Ok options =>
    Ok {| _delimiters := _delimiters config;
          _sections := dict_update (_sections config) section options |}
  | Raise x => Raise x
  end.

(** The stored value of an option, [config.get(section, name, raw=True)];
    the option name passes through [optionxform] as well.  It is the
    value that [write] writes; [config[section][name]] interpolates it. *)
Definition getitem (config : ConfigParser) (section name : string)
  : option string :=
  match dict_get (_sections config) section with
  | Some options => dict_get options (optionxform name)
  | None => None
  end.

(** [config[section].keys()] *)
Definition options_of (config : ConfigParser) (section : string) : list string :=
  match dict_get (_sections config) section with
  | Some options => map fst options
  | None => []
  end.

Definition line_break : string := String newline EmptyString.

(** One line of a written section: [key], the delimiter between spaces,
    the value. *)
Definition write_option (delimiter : string) (item : string * string) : string :=
  fst item +:+ " " +:+ delimiter +:+ " " +:+ indent_newlines (snd item)
  +:+ line_break.

(** The pieces that [_write_section] writes, one [fp.write] each: the
    header, the options, an empty line. *)
Definition write_section (delimiter : string) (section : string * dict string)
  : list string :=
  ("[" +:+ fst section +:+ "]" +:+ line_break)
  :: map (write_option delimiter) (snd section) ++ [line_break].

(** The text that [config.write(f)] writes. *)
Definition write_config (config : ConfigParser) : string :=
  String.concat ""
    (concat (map (write_section (_delimiters config)) (_sections config))).

(** The tokens of one record: the consonants, then the vowel. *)
Definition lyric_group (extracted_data : ExtractedDataDict) : string :=
  join " " (ed_consonant_tuple extracted_data ++ [ed_vowel extracted_data]).

Definition xsampa (extracted_data_dict_per_event_tuple : list ExtractedDataDict)
  : string :=
  join " " (map lyric_group extracted_data_dict_per_event_tuple).

(** [_add_lyric_section] *)
Definition _add_lyric_section (self : IsisScoreConverter)
    (score_config_file : ConfigParser)
    (extracted_data_dict_per_event_tuple : list ExtractedDataDict)
  : result ConfigParser :=
  setitem score_config_file SECTION_LYRIC_NAME
    [("xsampa", StrValue (xsampa extracted_data_dict_per_event_tuple))].

(** The three list parameters of the score section with their lambdas. *)
Definition midiNotes (extracted_data : ExtractedDataDict) : string :=
  num_str (midi_pitch_number (ed_pitch extracted_data)).

Definition rhythm (extracted_data : ExtractedDataDict) : string :=
  num_str (ed_duration extracted_data).

Definition loud_accents (extracted_data : ExtractedDataDict) : string :=
  num_str (amplitude (ed_volume extracted_data)).

Definition score_parameters : list (string * (ExtractedDataDict → string)) :=
  [("midiNotes", midiNotes); ("rhythm", rhythm); ("loud_accents", loud_accents)].

(** The dict that [_add_score_section] builds. *)
Definition score_section (self : IsisScoreConverter)
    (extracted_data_dict_per_event_tuple : list ExtractedDataDict) : dict value :=
  fold_left
    (fun section parameter =>
       dict_update section (fst parameter)
         (StrValue (join ", " (map (snd parameter)
                                   extracted_data_dict_per_event_tuple))))
    score_parameters
    [("globalTransposition", IntValue (_global_transposition self));
     ("tempo", NumberValue (_tempo self))].

(** [_add_score_section] *)
Definition _add_score_section (self : IsisScoreConverter)
    (score_config_file : ConfigParser)
    (extracted_data_dict_per_event_tuple : list ExtractedDataDict)
  : result ConfigParser :=
  setitem score_config_file SECTION_SCORE_NAME
    (score_section self extracted_data_dict_per_event_tuple).

(** The config that [convert] builds for the extracted records: a new
    parser, then the lyrics section, then the score section. *)
Definition score_config (self : IsisScoreConverter)
    (extracted_data_dict_per_event_tuple : list ExtractedDataDict)
  : result ConfigParser :=
  let score_config_file := new_ConfigParser ":" in
  match _add_lyric_section self score_config_file
          extracted_data_dict_per_event_tuple with
  | Raise x => Raise x
  | Ok score_config_file =>
    _add_score_section self score_config_file
      extracted_data_dict_per_event_tuple
  end.

(** ** Files and the external program *)

(** What the converters touch outside: the files (path to content), the
    commands handed to [os.system], oldest first, and the paths that
    cannot be opened for writing (no such directory, no permission). *)
Record World := {
  files : gmap string string;
  commands : list string;
  unwritable : gset string
}.

(** The world after [content] has been written to [path]. *)
Definition write_file (path content : string) (w : World) : World :=
  {| files := <[path := content]> (files w); commands := commands w;
     unwritable := unwritable w |}.

(** [with open(path, "w") as f: f.write(content)]: a path that cannot be
    opened raises [OSError] and nothing is written. *)
Definition open_and_write (path content : string) (w : World)
  : result unit * World :=
  if decide (path ∈ unwritable w) then (Raise (OtherException "OSError"), w)
  else (Ok (), write_file path content w).

(** [IsisScoreConverter.convert]: the tie pass, the walk, the two
    sections, and only then the file. *)
Definition IsisScoreConverter_convert (self : IsisScoreConverter)
    (event_to_convert : Event) (path : string) (w : World)
  : result unit * World :=
  let event_to_convert := tie_rests self event_to_convert in
  match _convert_event self event_to_convert with
  | Raise x => (Raise x, w)
  | Ok extracted_data_dict_per_event_tuple =>
    match score_config self extracted_data_dict_per_event_tuple with
    | Raise x => (Raise x, w)
    | Ok score_config_file =>
      open_and_write path (write_config score_config_file) w
    end
  end.

(** ** IsisConverter *)

Record IsisConverter := {
  isis_score_converter : IsisScoreConverter;
  flags : list string;
  remove_score_file : bool
}.

(** [IsisConverter(isis_score_converter, *flag)]: [remove_score_file]
    defaults to [False]. *)
Definition new_IsisConverter (score_converter : IsisScoreConverter)
    (flag : list string) : IsisConverter :=
  {| isis_score_converter := score_converter; flags := flag;
     remove_score_file := false |}.

Section Render.

(** The external program behind [os.system]: what running a command does
    to the files, and its exit status. *)
Variable run : string → gmap string string → gmap string string * Z.

(** [os.system(command)]: returns when the command has ended. *)
Definition os_system (command : string) (w : World) : Z * World :=
  let outcome := run command (files w) in
  (snd outcome,
   {| files := fst outcome; commands := commands w ++ [command];
      unwritable := unwritable w |}).

(** [os.remove(path)] *)
Definition os_remove (path : string) (w : World) : result unit * World :=
  match files w !! path with
  | Some _ =>
    (Ok (), {| files := delete path (files w); commands := commands w;
               unwritable := unwritable w |})
  | None => (Raise FileNotFoundError, w)
  end.

(** ["{}.isis_score".format(path)] *)
Definition score_path_of (path : string) : string := path +:+ ".isis_score".

(** The command line: ["{} -m {} -o {}"] and then [" {} "] for each flag. *)
Definition command_of (flag : list string) (score_path path : string) : string :=
  fold_left (fun command f => command +:+ " " +:+ f +:+ " ") flag
    (ISIS_PATH +:+ " -m " +:+ score_path +:+ " -o " +:+ path).

(** [IsisConverter.convert] *)
Definition IsisConverter_convert (self : IsisConverter)
    (event_to_convert : Event) (path : string) (w : World)
  : result unit * World :=
  let score_path := score_path_of path in
  match IsisScoreConverter_convert (isis_score_converter self) event_to_convert
          score_path w with
  | (Raise x, w1) => (Raise x, w1)
  | (Ok _, w1) =>
    let command := command_of (flags self) score_path path in
    let w2 := snd (os_system command w1) in
    if remove_score_file self then os_remove score_path w2 else (Ok (), w2)
  end.

End Render.

End Isis.

Arguments Pitch number : clear implicits.
Arguments Volume number : clear implicits.
Arguments SimpleEvent number : clear implicits.
Arguments Event number : clear implicits.
Arguments ExtractedDataDict number : clear implicits.
Arguments IsisScoreConverter number : clear implicits.
Arguments IsisConverter number : clear implicits.
Arguments value number : clear implicits.

(** ** Numbers for the examples *)

(** Python's [int] and the [float]s of integral value, which is what the
    events of the tests need: [PyInt 7] is [7] and [PyFloat 60] is [60.0].
    The sum of two [int]s is an [int], any other sum is a [float]; [str]
    writes a [float] of integral value with one decimal. *)
Inductive small_number :=
| PyInt (z : Z)
| PyFloat (z : Z).

Definition small_add (a b : small_number) : small_number :=
  match a, b with
  | PyInt x, PyInt y => PyInt (x + y)
  | PyInt x, PyFloat y => PyFloat (x + y)
  | PyFloat x, PyInt y => PyFloat (x + y)
  | PyFloat x, PyFloat y => PyFloat (x + y)
  end.

Definition small_str (a : small_number) : string :=
  match a with
  | PyInt x => pretty x
  | PyFloat x => pretty x +:+ ".0"
  end.

#[global] Instance small_number_PyNumber : PyNumber small_number :=
  {| num_add := small_add; num_str := small_str;
     num_of_int := PyInt; num_of_float := PyFloat |}.

(** [NoteLikeWithText(pitch_list, duration, volume, consonant_tuple, vowel)]
    of the tests. *)
Definition NoteLikeWithText (pitches : list (Pitch small_number))
    (d : small_number) (v : small_number) (consonants : list string)
    (vowel_ : string) : SimpleEvent small_number :=
  {| duration := d; pitch_list := Some pitches;
     volume := Some (DirectVolume v);
     vowel := Some vowel_; consonant_tuple := Some consonants |}.

(** [WesternPitch()], the c of the fourth octave: midi pitch number 60.0. *)
Definition WesternPitch_c4 : Pitch small_number :=
  {| midi_pitch_number := PyFloat 60 |}.

(** The events of the tests, with the volume 1 in place of 0.5. *)
Definition test_note : SimpleEvent small_number :=
  NoteLikeWithText [WesternPitch_c4] (PyInt 2) (PyInt 1) ["t"] "a".

(** [NoteLikeWithText([], 3, 1, tuple([]), "")]: a rest by its empty pitch
    list. *)
Definition test_empty_pitch_list : SimpleEvent small_number :=
  NoteLikeWithText [] (PyInt 3) (PyInt 1) [] "".

(** The event of [test_convert_sequential_event]. *)
Definition test_sequential_event : Event small_number :=
  Sequential
    [ Simple test_note;
      Simple (bare_event (PyInt 4));
      Simple test_empty_pitch_list;
      Simple test_note ].

(** The records of that event: the two rests are one record. *)
Definition test_note_record : ExtractedDataDict small_number :=
  {| ed_duration := PyInt 2; ed_consonant_tuple := ["t"]; ed_vowel := "a";
     ed_pitch := WesternPitch_c4; ed_volume := DirectVolume (PyInt 1) |}.

Definition test_records : list (ExtractedDataDict small_number) :=
  [ test_note_record; _extracted_data_dict_rest (PyInt 7); test_note_record ].

(** An event with an empty pitch list and nothing else. *)
Definition test_empty_pitch_list_only : SimpleEvent small_number :=
  {| duration := PyInt 3; pitch_list := Some []; volume := None;
     vowel := None; consonant_tuple := None |}.

(** A note whose vowel is the X-SAMPA mark of the secondary stress, and
    its record. *)
Definition test_percent_note : SimpleEvent small_number :=
  NoteLikeWithText [WesternPitch_c4] (PyInt 2) (PyInt 1) ["t"] "%".

Definition test_percent_record : ExtractedDataDict small_number :=
  {| ed_duration := PyInt 2; ed_consonant_tuple := ["t"]; ed_vowel := "%";
     ed_pitch := WesternPitch_c4; ed_volume := DirectVolume (PyInt 1) |}.

(** A converter whose volume getter refuses an event without volume with
    a [ValueError] of its own. *)
Definition strict_volume_converter : IsisScoreConverter small_number :=
  {| _tempo := PyInt 60;
     _global_transposition := 0;
     _default_sentence_loudness := None;
     _n_events_per_line := 5;
     _is_simple_event_rest := default_is_simple_event_rest;
     simple_event_to_consonant_tuple := default_simple_event_to_consonant_tuple;
     simple_event_to_vowel := default_simple_event_to_vowel;
     simple_event_to_pitch := default_simple_event_to_pitch;
     simple_event_to_volume :=
       fun e => match volume e with
                | Some v => Ok v
                | None => Raise (OtherException "ValueError")
                end |}.

(** A note without volume. *)
Definition test_note_without_volume : SimpleEvent small_number :=
  {| duration := PyInt 2; pitch_list := Some [WesternPitch_c4]; volume := None;
     vowel := Some "a"; consonant_tuple := Some ["t"] |}.



(** ** Vocabulary of the statements *)

Section Vocabulary.
Context {number : Type} `{PyNumber number}.

(** How one call of an extraction function ended. *)
Inductive outcome :=
| Returned
| Raised (x : exception).

Definition outcome_of {A : Type} (r : result A) : outcome :=
  match r with
  | Ok _ => Returned
  | Raise x => Raised x
  end.

(** The four extraction functions on an event, in the order of the loop. *)
Definition extraction_outcomes (self : IsisScoreConverter number)
    (e : SimpleEvent number) : list outcome :=
  [ outcome_of (simple_event_to_consonant_tuple self e);
    outcome_of (simple_event_to_vowel self e);
    outcome_of (simple_event_to_pitch self e);
    outcome_of (simple_event_to_volume self e) ].

(** An extraction function raises [x] during the extraction of [e]: the
    functions before it in the loop have returned. *)
Definition raises_during_extraction (self : IsisScoreConverter number)
    (e : SimpleEvent number) (x : exception) : Prop :=
  ∃ before after,
    extraction_outcomes self e = before ++ Raised x :: after
    ∧ Forall (eq Returned) before.

(** The record made of what the four functions extracted. *)
Definition extracted_record (d : number) (consonants : list string)
    (vowel_ : string) (pitch : Pitch number) (volume_ : Volume number)
  : ExtractedDataDict number :=
  {| ed_duration := d; ed_consonant_tuple := consonants; ed_vowel := vowel_;
     ed_pitch := pitch; ed_volume := volume_ |}.

(** The rest predicate does not look at the duration. *)
Definition ignores_duration (is_rest : SimpleEvent number → bool) : Prop :=
  ∀ e d, is_rest (set_duration e d) = is_rest e.

(** The duration of a tied run: the durations are added one by one to the
    duration of the first event. *)
Definition duration_sum (first : SimpleEvent number)
    (others : list (SimpleEvent number)) : number :=
  fold_left (fun total e => num_add (duration e) total) others (duration first).

(** Two neighbours of the sequence are both rests. *)
Fixpoint adjacent_rests (is_rest : SimpleEvent number → bool)
    (l : list (SimpleEvent number)) : bool :=
  match l with
  | [] => false
  | e0 :: l' =>
    match l' with
    | [] => false
    | e1 :: _ => (is_rest e0 && is_rest e1) || adjacent_rests is_rest l'
    end
  end.

(** The lyrics in the words of the specification: every token of every
    record, consonants before the vowel, joined by single spaces. *)
Definition xsampa_tokens (records : list (ExtractedDataDict number)) : list string :=
  concat (map (fun d => ed_consonant_tuple d ++ [ed_vowel d]) records).

Definition xsampa_spec (records : list (ExtractedDataDict number)) : string :=
  join " " (xsampa_tokens records).

(** The six values that [convert] hands to the parser, in the order of
    the assignments. *)
Definition written_values (self : IsisScoreConverter number)
    (records : list (ExtractedDataDict number)) : list string :=
  [ xsampa records;
    pretty (_global_transposition self);
    num_str (_tempo self);
    join ", " (map midiNotes records);
    join ", " (map rhythm records);
    join ", " (map loud_accents records) ].

(** The parser after both sections have been assigned, with the option
    names as the parser keeps them. *)
Definition assigned_config (self : IsisScoreConverter number)
    (records : list (ExtractedDataDict number)) : ConfigParser :=
  {| _delimiters := ":";
     _sections :=
       [ (SECTION_LYRIC_NAME, [("xsampa", xsampa records)]);
         (SECTION_SCORE_NAME,
          [ ("globaltransposition", pretty (_global_transposition self));
            ("tempo", num_str (_tempo self));
            ("midinotes", join ", " (map midiNotes records));
            ("rhythm", join ", " (map rhythm records));
            ("loud_accents", join ", " (map loud_accents records)) ]) ] |}.




(** The command line in the words of the specification: the program, the
    flags [-m] and [-o], then the extra flags in their order. *)
Definition command_spec (flag : list string) (score_path path : string) : string :=
  (ISIS_PATH +:+ " -m " +:+ score_path +:+ " -o " +:+ path)
  +:+ String.concat "" (map (fun f => " " +:+ f +:+ " ") flag).

End Vocabulary.

(** A line of the score file in the words of the specification: the key,
    a colon as delimiter, the value. *)
Definition score_line (key value : string) : string :=
  key +:+ " : " +:+ indent_newlines value +:+ line_break.

(** The score file: the lyrics section with its one key and the score
    section with its five keys, as the parser names them. *)
Definition score_text (lyrics transposition tempo midi_notes durations
    accents : string) : string :=
  String.concat ""
    [ "[lyrics]" +:+ line_break;
      score_line "xsampa" lyrics;
      line_break;
      "[score]" +:+ line_break;
      score_line "globaltransposition" transposition;
      score_line "tempo" tempo;
      score_line "midinotes" midi_notes;
      score_line "rhythm" durations;
      score_line "loud_accents" accents;
      line_break ].

(** An empty world, and an external program that writes one sound file. *)
Definition empty_world : World :=
  {| files := ∅; commands := []; unwritable := ∅ |}.

Definition example_run (command : string) (fs : gmap string string)
  : gmap string string * Z :=
  (<["voice.wav" := "RIFF"]> fs, 0%Z).

(** * Properties *)

(** ** Extraction of one event *)

Section Extraction.
Context {number : Type} `{PyNumber number}.
Implicit Types (self : IsisScoreConverter number) (e : SimpleEvent number).

(** What the loop returns, by the first function that raises. *)
Lemma convert_simple_event_first_raise self e x :
  raises_during_extraction self e x →
  _convert_simple_event self e =
    if decide (x = AttributeError)
    then Ok [_extracted_data_dict_rest (duration e)]
    else Raise x.
Proof.
  intros (before & after & Hsplit & Hbefore).
  unfold extraction_outcomes in Hsplit. unfold _convert_simple_event.
  destruct (simple_event_to_consonant_tuple self e) as [c|x1];
    destruct (simple_event_to_vowel self e) as [v|x2];
    destruct (simple_event_to_pitch self e) as [p|x3];
    destruct (simple_event_to_volume self e) as [vol|x4];
    destruct before as [|o1 [|o2 [|o3 [|o4 [|o5 before]]]]];
    simplify_eq/=;
    repeat match goal with
           | Hall : Forall _ (_ :: _) |- _ =>
             apply Forall_cons in Hall as [? Hall]
           end;
    try discriminate;
    destruct (decide (x = AttributeError)) as [->|Hne];
    try reflexivity; destruct x; simpl; congruence.
Qed.

(** The loop ends in one of three ways. *)
Lemma convert_simple_event_cases self e :
  (∃ consonants vowel_ pitch volume_,
      simple_event_to_consonant_tuple self e = Ok consonants
      ∧ simple_event_to_vowel self e = Ok vowel_
      ∧ simple_event_to_pitch self e = Ok pitch
      ∧ simple_event_to_volume self e = Ok volume_
      ∧ _convert_simple_event self e
        = Ok [extracted_record (duration e) consonants vowel_ pitch volume_])
  ∨ (raises_during_extraction self e AttributeError
     ∧ _convert_simple_event self e
       = Ok [_extracted_data_dict_rest (duration e)])
  ∨ (∃ x, x ≠ AttributeError ∧ raises_during_extraction self e x
          ∧ _convert_simple_event self e = Raise x).
Proof.
  assert (Hraise : ∀ x, raises_during_extraction self e x →
            (raises_during_extraction self e AttributeError
             ∧ _convert_simple_event self e
               = Ok [_extracted_data_dict_rest (duration e)])
            ∨ (∃ y, y ≠ AttributeError ∧ raises_during_extraction self e y
                    ∧ _convert_simple_event self e = Raise y)).
  { intros x Hx. pose proof (convert_simple_event_first_raise _ _ _ Hx) as Heq.
    destruct (decide (x = AttributeError)) as [->|Hne]; [left|right]; eauto. }
  destruct (simple_event_to_consonant_tuple self e) as [c|x] eqn:Hc.
  2:{ right. apply (Hraise x). eexists [], _. unfold extraction_outcomes.
      rewrite Hc. split; [reflexivity | constructor]. }
  destruct (simple_event_to_vowel self e) as [v|x] eqn:Hv.
  2:{ right. apply (Hraise x). eexists [Returned], _. unfold extraction_outcomes.
      rewrite Hc, Hv. split; [reflexivity | repeat constructor]. }
  destruct (simple_event_to_pitch self e) as [p|x] eqn:Hp.
  2:{ right. apply (Hraise x). eexists [Returned; Returned], _.
      unfold extraction_outcomes.
      rewrite Hc, Hv, Hp. split; [reflexivity | repeat constructor]. }
  destruct (simple_event_to_volume self e) as [vol|x] eqn:Hvol.
  2:{ right. apply (Hraise x). eexists [Returned; Returned; Returned], _.
      unfold extraction_outcomes.
      rewrite Hc, Hv, Hp, Hvol. split; [reflexivity | repeat constructor]. }
  left. exists c, v, p, vol. repeat split.
  unfold _convert_simple_event. by rewrite Hc, Hv, Hp, Hvol.
Qed.

(** A converted simple event gives one record. *)
Lemma convert_simple_event_length self e records :
  _convert_simple_event self e = Ok records → length records = 1.
Proof.
  intros Heq.
  destruct (convert_simple_event_cases self e)
    as [(c & v & p & vol & _ & _ & _ & _ & Hr) | [[_ Hr] | (x & _ & _ & Hr)]];
    rewrite Hr in Heq; by simplify_eq.
Qed.

(** An exception is raised during the extraction when the first function
    raises it, or the second after the first has returned, and so on. *)
Lemma raises_during_extraction_iff self e x :
  raises_during_extraction self e x ↔
  simple_event_to_consonant_tuple self e = Raise x
  ∨ (∃ consonants,
        simple_event_to_consonant_tuple self e = Ok consonants
        ∧ (simple_event_to_vowel self e = Raise x
           ∨ ∃ vowel_,
               simple_event_to_vowel self e = Ok vowel_
               ∧ (simple_event_to_pitch self e = Raise x
                  ∨ ∃ pitch,
                      simple_event_to_pitch self e = Ok pitch
                      ∧ simple_event_to_volume self e = Raise x))).
Proof.
  unfold raises_during_extraction, extraction_outcomes. split.
  - intros (before & after & Hsplit & Hbefore).
    destruct (simple_event_to_consonant_tuple self e) as [c|x1];
      destruct (simple_event_to_vowel self e) as [v|x2];
      destruct (simple_event_to_pitch self e) as [p|x3];
      destruct (simple_event_to_volume self e) as [vol|x4];
      destruct before as [|o1 [|o2 [|o3 [|o4 [|o5 before]]]]];
      simplify_eq/=;
      repeat match goal with
             | Hall : Forall _ (_ :: _) |- _ =>
               apply Forall_cons in Hall as [? Hall]
             end;
      try discriminate; naive_solver.
  - intros [Hc | (c & Hc & [Hv | (v & Hv & [Hp | (p & Hp & Hvol)])])].
    + eexists [], _. rewrite Hc. split; [reflexivity | constructor].
    + eexists [Returned], _. rewrite Hc, Hv.
      split; [reflexivity | repeat constructor].
    + eexists [Returned; Returned], _. rewrite Hc, Hv, Hp.
      split; [reflexivity | repeat constructor].
    + eexists [Returned; Returned; Returned], _. rewrite Hc, Hv, Hp, Hvol.
      split; [reflexivity | repeat constructor].
Qed.

(** Only one exception can be raised during the extraction of an event. *)
Lemma raises_during_extraction_unique self e x y :
  raises_during_extraction self e x → raises_during_extraction self e y → x = y.
Proof.
  intros Hx Hy.
  apply convert_simple_event_first_raise in Hx, Hy. rewrite Hx in Hy.
  destruct (decide (x = AttributeError)), (decide (y = AttributeError));
    congruence.
Qed.

(** The default pitch getter on an event whose pitch list is empty. *)
Lemma default_pitch_of_empty_list e :
  pitch_list e = Some [] → default_simple_event_to_pitch e = Raise IndexError.
Proof. intros Hp. unfold default_simple_event_to_pitch. by rewrite Hp. Qed.

(** With the default functions an event without a pitch list becomes the
    rest record, whatever its other attributes are. *)
Lemma default_no_pitch_list_gives_rest e :
  pitch_list e = None →
  _convert_simple_event default_score_converter e
  = Ok [_extracted_data_dict_rest (duration e)].
Proof.
  intros Hp. unfold _convert_simple_event. simpl.
  unfold default_simple_event_to_consonant_tuple, default_simple_event_to_vowel,
    default_simple_event_to_pitch.
  rewrite Hp. by destruct (consonant_tuple e), (vowel e).
Qed.

(** C1: when an extraction function raises the missing-attribute condition
    during the extraction of an event, the result is the canonical rest
    record with the duration of the event (vowel "_", no consonants, the
    sentinel pitch, volume 0) and nothing is raised; and whatever the
    extraction functions do, a returned record is either that rest record
    or the record of the four extracted values, never a mix. *)
Theorem C1_missing_attribute_gives_rest_record self e :
  raises_during_extraction self e AttributeError →
  _convert_simple_event self e = Ok [_extracted_data_dict_rest (duration e)]
  ∧ ed_duration (_extracted_data_dict_rest (duration e)) = duration e
  ∧ ed_vowel (_extracted_data_dict_rest (duration e)) = "_"
  ∧ ed_consonant_tuple (_extracted_data_dict_rest (duration e)) = []
  ∧ ed_pitch (_extracted_data_dict_rest (duration e)) = rest_pitch
  ∧ amplitude (ed_volume (_extracted_data_dict_rest (duration e)))
    = num_of_int 0
  ∧ ∀ e' records,
      _convert_simple_event self e' = Ok records →
      records = [_extracted_data_dict_rest (duration e')]
      ∨ ∃ consonants vowel_ pitch volume_,
          simple_event_to_consonant_tuple self e' = Ok consonants
          ∧ simple_event_to_vowel self e' = Ok vowel_
          ∧ simple_event_to_pitch self e' = Ok pitch
          ∧ simple_event_to_volume self e' = Ok volume_
          ∧ records
            = [extracted_record (duration e') consonants vowel_ pitch volume_].
Proof.
  intros Hraise. split.
  { by rewrite (convert_simple_event_first_raise _ _ _ Hraise). }
  do 5 (split; [reflexivity|]).
  intros e' records Hok.
  destruct (convert_simple_event_cases self e')
    as [(c & v & p & vol & Hc & Hv & Hp & Hvol & Hr) | [[_ Hr] | (x & _ & _ & Hr)]];
    rewrite Hr in Hok; simplify_eq.
  - right. by exists c, v, p, vol.
  - by left.
Qed.

(** C10: an exception other than the missing-attribute condition that an
    extraction function raises during the extraction reaches the caller
    unchanged, every exception that reaches the caller is such an
    exception, and without a missing-attribute condition a returned record
    is the extracted one; with the default functions the pitch getter
    raises an index error on an event whose pitch list is empty, and when
    the consonants and the vowel of such an event are present the index
    error leaves [_convert_simple_event] and [convert]: no rest record is
    produced and no file is written; when the consonants or the vowel of
    such an event are missing, their getter raises the missing-attribute
    condition first and the rest record is returned. *)
Theorem C10_other_exceptions_propagate self e x :
  x ≠ AttributeError →
  (raises_during_extraction self e x → _convert_simple_event self e = Raise x)
  ∧ (_convert_simple_event self e = Raise x → raises_during_extraction self e x)
  ∧ _convert_simple_event self e ≠ Raise AttributeError
  ∧ (¬ raises_during_extraction self e AttributeError →
     ∀ records, _convert_simple_event self e = Ok records →
       ∃ consonants vowel_ pitch volume_,
         simple_event_to_consonant_tuple self e = Ok consonants
         ∧ simple_event_to_vowel self e = Ok vowel_
         ∧ simple_event_to_pitch self e = Ok pitch
         ∧ simple_event_to_volume self e = Ok volume_
         ∧ records
           = [extracted_record (duration e) consonants vowel_ pitch volume_])
  ∧ (∀ e', pitch_list e' = Some [] →
       default_simple_event_to_pitch e' = Raise IndexError)
  ∧ (∀ e' consonants vowel_ path w,
       pitch_list e' = Some [] →
       consonant_tuple e' = Some consonants →
       vowel e' = Some vowel_ →
       _convert_simple_event default_score_converter e' = Raise IndexError
       ∧ IsisScoreConverter_convert default_score_converter (Simple e') path w
         = (Raise IndexError, w))
  ∧ (∀ e', pitch_list e' = Some [] →
       consonant_tuple e' = None ∨ vowel e' = None →
       _convert_simple_event default_score_converter e'
       = Ok [_extracted_data_dict_rest (duration e')]).
Proof.
  intros Hx. split; [|split; [|split; [|split; [|split; [|split]]]]].
  - intros Hraise. rewrite (convert_simple_event_first_raise _ _ _ Hraise).
    by destruct (decide (x = AttributeError)).
  - intros Hr.
    destruct (convert_simple_event_cases self e)
      as [(c & v & p & vol & _ & _ & _ & _ & Hr') | [[_ Hr'] | (y & _ & Hy & Hr')]];
      rewrite Hr' in Hr; by simplify_eq.
  - intros Hr.
    destruct (convert_simple_event_cases self e)
      as [(c & v & p & vol & _ & _ & _ & _ & Hr') | [[_ Hr'] | (y & Hne & _ & Hr')]];
      rewrite Hr' in Hr; by simplify_eq.
  - intros Hno records Hok.
    destruct (convert_simple_event_cases self e)
      as [(c & v & p & vol & Hc & Hv & Hp & Hvol & Hr) | [[Hae _] | (y & _ & _ & Hr)]].
    + rewrite Hr in Hok. simplify_eq. by exists c, v, p, vol.
    + by destruct Hno.
    + rewrite Hr in Hok. discriminate.
  - apply default_pitch_of_empty_list.
  - intros e' consonants vowel_ path w Hpitch Hconsonants Hvowel.
    assert (Hraise : _convert_simple_event default_score_converter e'
                     = Raise IndexError).
    { unfold _convert_simple_event. simpl.
      unfold default_simple_event_to_consonant_tuple,
        default_simple_event_to_vowel, default_simple_event_to_pitch.
      by rewrite Hpitch, Hconsonants, Hvowel. }
    split; [exact Hraise|].
    unfold IsisScoreConverter_convert, tie_rests. simpl. by rewrite Hraise.
  - intros e' Hpitch Hmissing.
    unfold _convert_simple_event. simpl.
    unfold default_simple_event_to_consonant_tuple,
      default_simple_event_to_vowel, default_simple_event_to_pitch.
    rewrite Hpitch.
    destruct (consonant_tuple e') as [c|], (vowel e') as [v|];
      try reflexivity. destruct Hmissing; discriminate.
Qed.

End Extraction.

(** ** Tying adjacent rests *)

Section Tying.
Context {number : Type} `{PyNumber number}.
Implicit Types (self : IsisScoreConverter number) (e : SimpleEvent number).
Implicit Types (l before others after : list (SimpleEvent number)).

Lemma set_duration_same e : set_duration e (duration e) = e.
Proof. by destruct e. Qed.

(** Simple children have nothing nested to tie. *)
Lemma tie_by_simple_children condition l :
  map (tie_by condition) (map Simple l) = map Simple l.
Proof. induction l as [|e l IH]; simpl; congruence. Qed.

(** The default rest predicate reads the pitch list only. *)
Lemma default_rest_ignores_duration :
  ignores_duration (@default_is_simple_event_rest number).
Proof. intros e d. reflexivity. Qed.

(** A run of rests that starts the scan is merged into its first event. *)
Lemma tie_adjacent_run self first others after :
  ignores_duration (_is_simple_event_rest self) →
  Forall (fun e => _is_simple_event_rest self e = true) (first :: others) →
  (∀ e, head after = Some e → _is_simple_event_rest self e = false) →
  tie_adjacent (both_rest self) (Simple first) (map Simple (others ++ after))
  = Simple (set_duration first (duration_sum first others))
    :: tie_children (both_rest self) (map Simple after).
Proof.
  intros Hignore Hrests Hafter. revert first Hrests.
  induction others as [|o others IH]; intros first Hrests.
  - unfold duration_sum. simpl. rewrite set_duration_same.
    destruct after as [|a after]; simpl; [reflexivity|].
    unfold both_rest. rewrite (Hafter a eq_refl), andb_false_r. reflexivity.
  - apply Forall_cons in Hrests as [Hfirst Hrests].
    apply Forall_cons in Hrests as [Ho Hrests].
    simpl. unfold both_rest at 1. rewrite Hfirst, Ho. simpl.
    rewrite IH.
    + reflexivity.
    + apply Forall_cons. split; [|exact Hrests].
      by rewrite Hignore.
Qed.

(** The scan of a prefix that ends with an event that is no rest does not
    reach into what follows. *)
Lemma tie_adjacent_prefix self e before (following : list (Event number)) :
  (∀ e', last (e :: before) = Some e' → _is_simple_event_rest self e' = false) →
  tie_adjacent (both_rest self) (Simple e) (map Simple before ++ following)
  = tie_adjacent (both_rest self) (Simple e) (map Simple before)
    ++ tie_children (both_rest self) following.
Proof.
  revert e. induction before as [|b before IH]; intros e Hlast.
  - simpl. destruct following as [|[e1|children|children] following];
      simpl; try reflexivity.
    unfold both_rest. by rewrite (Hlast e eq_refl).
  - simpl. destruct (both_rest self e b) eqn:Hboth.
    + apply IH. intros e' He'. destruct before as [|b' before].
      * apply andb_true_iff in Hboth as [_ Hb].
        rewrite (Hlast b eq_refl) in Hb. discriminate.
      * apply Hlast. exact He'.
    + simpl. f_equal. apply IH. intros e' He'. apply Hlast. exact He'.
Qed.

(** A sequence without two neighbouring rests is left as it is. *)
Lemma tie_adjacent_no_adjacent_rests self e l :
  adjacent_rests (_is_simple_event_rest self) (e :: l) = false →
  tie_adjacent (both_rest self) (Simple e) (map Simple l) = map Simple (e :: l).
Proof.
  revert e. induction l as [|a l IH]; intros e Hnone; [reflexivity|].
  change (adjacent_rests (_is_simple_event_rest self) (e :: a :: l))
    with ((_is_simple_event_rest self e && _is_simple_event_rest self a)
          || adjacent_rests (_is_simple_event_rest self) (a :: l)) in Hnone.
  apply orb_false_iff in Hnone as [Hpair Hnone].
  simpl. unfold both_rest at 1. rewrite Hpair. f_equal. by apply IH.
Qed.

(** C9: the tie pass leaves a sequence in which no two neighbours are both
    classified as rests exactly as it is. *)
Theorem C9_tie_of_tied_sequence_is_identity self l :
  adjacent_rests (_is_simple_event_rest self) l = false →
  tie_rests self (Sequential (map Simple l)) = Sequential (map Simple l).
Proof.
  intros Hnone. unfold tie_rests. simpl. rewrite tie_by_simple_children.
  f_equal. destruct l as [|e l]; [reflexivity|].
  by apply tie_adjacent_no_adjacent_rests.
Qed.

(** What the scan makes of simple events: simple events again, the first
    of them the first of the input up to its duration, and no two
    neighbours both rests. *)
Lemma tie_adjacent_tied self e l :
  ignores_duration (_is_simple_event_rest self) →
  ∃ d tied,
    tie_adjacent (both_rest self) (Simple e) (map Simple l)
    = map Simple (set_duration e d :: tied)
    ∧ adjacent_rests (_is_simple_event_rest self) (set_duration e d :: tied)
      = false.
Proof.
  intros Hignore. revert e. induction l as [|a l IH]; intros e.
  - exists (duration e), []. rewrite set_duration_same. split; reflexivity.
  - simpl. destruct (both_rest self e a) eqn:Hboth.
    + destruct (IH (set_duration e (num_add (duration a) (duration e))))
        as (d & tied & Heq & Hnone).
      exists d, tied. split; [exact Heq | exact Hnone].
    + destruct (IH a) as (d & tied & Heq & Hnone).
      exists (duration e), (set_duration a d :: tied).
      rewrite set_duration_same, Heq. split; [reflexivity|].
      change (adjacent_rests (_is_simple_event_rest self)
                (e :: set_duration a d :: tied))
        with ((_is_simple_event_rest self e
               && _is_simple_event_rest self (set_duration a d))
              || adjacent_rests (_is_simple_event_rest self)
                   (set_duration a d :: tied)).
      rewrite Hnone, Hignore. unfold both_rest in Hboth. by rewrite Hboth.
Qed.

(** Tying a second time changes nothing, for a rest predicate that does
    not look at the duration. *)
Lemma tie_rests_idempotent self l :
  ignores_duration (_is_simple_event_rest self) →
  tie_rests self (tie_rests self (Sequential (map Simple l)))
  = tie_rests self (Sequential (map Simple l)).
Proof.
  intros Hignore. destruct l as [|e l]; [reflexivity|].
  destruct (tie_adjacent_tied self e l Hignore) as (d & tied & Heq & Hnone).
  assert (Htied : tie_rests self (Sequential (map Simple (e :: l)))
                  = Sequential (map Simple (set_duration e d :: tied))).
  { unfold tie_rests. simpl. rewrite tie_by_simple_children.
    f_equal. exact Heq. }
  rewrite Htied. unfold tie_rests.
  change (is_complex (Sequential (map Simple (set_duration e d :: tied))))
    with true.
  change (tie_by (both_rest self)
            (Sequential (map Simple (set_duration e d :: tied))))
    with (Sequential
            (tie_children (both_rest self)
               (map (tie_by (both_rest self))
                  (map Simple (set_duration e d :: tied))))).
  rewrite tie_by_simple_children. f_equal.
  by apply tie_adjacent_no_adjacent_rests.
Qed.

(** The run lemma inside a sequence: a maximal run of rests becomes its
    first event with the summed duration; what precedes and what follows
    the run is tied on its own. *)
Lemma tie_rests_run self before first others after :
  ignores_duration (_is_simple_event_rest self) →
  Forall (fun e => _is_simple_event_rest self e = true) (first :: others) →
  (∀ e, last before = Some e → _is_simple_event_rest self e = false) →
  (∀ e, head after = Some e → _is_simple_event_rest self e = false) →
  tie_rests self (Sequential (map Simple (before ++ first :: others ++ after)))
  = Sequential
      (tie_children (both_rest self) (map Simple before)
       ++ Simple (set_duration first (duration_sum first others))
          :: tie_children (both_rest self) (map Simple after)).
Proof.
  intros Hignore Hrests Hbefore Hafter.
  unfold tie_rests. simpl. rewrite tie_by_simple_children. f_equal.
  destruct before as [|b before].
  - simpl. by apply tie_adjacent_run.
  - rewrite map_app. simpl.
    rewrite (tie_adjacent_prefix self b before); [|exact Hbefore].
    f_equal. simpl. by apply tie_adjacent_run.
Qed.

End Tying.

(** ** Walking the event *)

Section Walking.
Context {number : Type} `{PyNumber number}.
Implicit Types (self : IsisScoreConverter number) (ev : Event number).
Implicit Types (children : list (Event number)).

(** Induction on events that reaches into the children. *)
Lemma Event_nested_ind (P : Event number → Prop) :
  (∀ e, P (Simple e)) →
  (∀ children, Forall P children → P (Sequential children)) →
  (∀ children, Forall P children → P (Simultaneous children)) →
  ∀ ev, P ev.
Proof.
  intros Hsimple Hsequential Hsimultaneous.
  fix IH 1. intros [e|children|children].
  - apply Hsimple.
  - apply Hsequential.
    induction children as [|child children IHchildren]; constructor;
      [apply IH | exact IHchildren].
  - apply Hsimultaneous.
    induction children as [|child children IHchildren]; constructor;
      [apply IH | exact IHchildren].
Qed.

(** The walk through a sequential event, child by child. *)
Lemma convert_sequential_nil self : _convert_event self (Sequential []) = Ok [].
Proof. reflexivity. Qed.

Lemma convert_sequential_cons self child children :
  _convert_event self (Sequential (child :: children))
  = match _convert_event self child with
    | Raise x => Raise x
    | Ok records =>
      match _convert_event self (Sequential children) with
      | Raise x => Raise x
      | Ok records' => Ok (records ++ records')
      end
    end.
Proof. reflexivity. Qed.

Lemma simple_events_sequential_cons child children :
  simple_events (Sequential (child :: children))
  = simple_events child ++ simple_events (Sequential children).
Proof. reflexivity. Qed.

(** One record for every simple event. *)
Lemma convert_event_length self ev :
  ∀ records, _convert_event self ev = Ok records →
             length records = length (simple_events ev).
Proof.
  induction ev as [e|children IH|children IH] using Event_nested_ind;
    intros records Hok.
  - simpl in *. by apply convert_simple_event_length in Hok.
  - revert records Hok. induction IH as [|child children Hchild _ IHchildren];
      intros records Hok.
    + by simplify_eq/=.
    + rewrite convert_sequential_cons in Hok.
      rewrite simple_events_sequential_cons.
      destruct (_convert_event self child) as [r|]; [|discriminate].
      destruct (_convert_event self (Sequential children)) as [r'|];
        [|discriminate].
      simplify_eq. rewrite !length_app.
      by rewrite (Hchild r), (IHchildren r').
  - discriminate.
Qed.

(** Where an exception of the walk comes from. *)
Lemma convert_event_raise_origin self ev x :
  _convert_event self ev = Raise x →
  x = NotImplementedError
  ∨ ∃ e, e ∈ simple_events ev ∧ _convert_simple_event self e = Raise x.
Proof.
  induction ev as [e|children IH|children IH] using Event_nested_ind;
    intros Hraise.
  - right. exists e. split; [apply list_elem_of_singleton; reflexivity | exact Hraise].
  - induction IH as [|child children Hchild _ IHchildren]; [discriminate|].
    rewrite convert_sequential_cons in Hraise.
    rewrite simple_events_sequential_cons.
    destruct (_convert_event self child) as [r|y] eqn:Hc.
    + destruct (_convert_event self (Sequential children)) as [r'|y];
        [discriminate|].
      simplify_eq. destruct (IHchildren eq_refl) as [->|(e & He & Hx)];
        [by left | right].
      exists e. split; [apply elem_of_app; by right | exact Hx].
    + simplify_eq. destruct (Hchild eq_refl) as [->|(e & He & Hx)];
        [by left | right].
      exists e. split; [apply elem_of_app; by left | exact Hx].
  - left. simpl in Hraise. unfold _convert_simultaneous_event in Hraise.
    congruence.
Qed.

(** A simultaneous event anywhere in the event ends the walk with an
    exception. *)
Lemma convert_event_polyphonic self ev :
  contains_simultaneous ev = true → ∃ x, _convert_event self ev = Raise x.
Proof.
  induction ev as [e|children IH|children IH] using Event_nested_ind;
    intros Hpoly.
  - discriminate.
  - simpl in Hpoly.
    induction IH as [|child children Hchild _ IHchildren]; [discriminate|].
    rewrite convert_sequential_cons. simpl in Hpoly.
    destruct (_convert_event self child) as [r|y] eqn:Hc; [|by eauto].
    destruct (contains_simultaneous child) eqn:Hpc.
    + destruct (Hchild eq_refl) as [x Hx]. discriminate.
    + simpl in Hpoly. destruct (IHchildren Hpoly) as [x ->]. by eauto.
  - by exists NotImplementedError.
Qed.











End Walking.

(** ** The score file *)

Section Score.
Context {number : Type} `{PyNumber number}.
Implicit Types (self : IsisScoreConverter number).
Implicit Types (records : list (ExtractedDataDict number)).

Lemma dict_get_update {V : Type} (d : dict V) (key : string) (v : V) :
  dict_get (dict_update d key v) key = Some v.
Proof.
  induction d as [|[k w] d IH]; simpl.
  - by rewrite String.eqb_refl.
  - destruct (String.eqb k key) eqn:Hk; simpl; by rewrite ?Hk.
Qed.

(** An option is stored when its value passes the interpolation check. *)
Lemma set_option_checked (options : dict string) (name v : string) :
  set_option options name v
  = if invalid_interpolation v then Raise (OtherException "ValueError")
    else Ok (dict_update options name v).
Proof.
  unfold set_option, before_set. destruct v as [|a v]; [reflexivity|].
  by destruct (invalid_interpolation (String a v)).
Qed.

(** [_add_lyric_section], by the check of its one value. *)
Lemma add_lyric_section_outcome self (config : ConfigParser) records :
  _add_lyric_section self config records
  = if invalid_interpolation (xsampa records)
    then Raise (OtherException "ValueError")
    else Ok {| _delimiters := _delimiters config;
               _sections := dict_update (_sections config) SECTION_LYRIC_NAME
                              [("xsampa", xsampa records)] |}.
Proof.
  unfold _add_lyric_section, setitem.
  change (read_options [] [("xsampa", StrValue (xsampa records))])
    with (match set_option [] "xsampa" (xsampa records) with
          | Ok options' => read_options options' ([] : dict (value number))
          | Raise x => Raise x
          end).
  rewrite set_option_checked.
  by destruct (invalid_interpolation (xsampa records)).
Qed.

(** [_add_score_section], by the checks of its five values. *)
Lemma add_score_section_outcome self (config : ConfigParser) records :
  _add_score_section self config records
  = if existsb invalid_interpolation
         [ pretty (_global_transposition self);
           num_str (_tempo self);
           join ", " (map midiNotes records);
           join ", " (map rhythm records);
           join ", " (map loud_accents records) ]
    then Raise (OtherException "ValueError")
    else Ok {| _delimiters := _delimiters config;
               _sections :=
                 dict_update (_sections config) SECTION_SCORE_NAME
                   [ ("globaltransposition",
                      pretty (_global_transposition self));
                     ("tempo", num_str (_tempo self));
                     ("midinotes", join ", " (map midiNotes records));
                     ("rhythm", join ", " (map rhythm records));
                     ("loud_accents", join ", " (map loud_accents records)) ]
            |}.
Proof.
  unfold _add_score_section, setitem.
  change (read_options [] (score_section self records))
    with (match set_option [] "globaltransposition"
                  (pretty (_global_transposition self)) with
          | Raise x => Raise x
          | Ok o1 =>
            match dict_get o1 "tempo" with
            | Some _ => Raise (OtherException "DuplicateOptionError")
            | None =>
              match set_option o1 "tempo" (num_str (_tempo self)) with
              | Raise x => Raise x
              | Ok o2 =>
                match dict_get o2 "midinotes" with
                | Some _ => Raise (OtherException "DuplicateOptionError")
                | None =>
                  match set_option o2 "midinotes"
                          (join ", " (map midiNotes records)) with
                  | Raise x => Raise x
                  | Ok o3 =>
                    match dict_get o3 "rhythm" with
                    | Some _ => Raise (OtherException "DuplicateOptionError")
                    | None =>
                      match set_option o3 "rhythm"
                              (join ", " (map rhythm records)) with
                      | Raise x => Raise x
                      | Ok o4 =>
                        match dict_get o4 "loud_accents" with
                        | Some _ =>
                          Raise (OtherException "DuplicateOptionError")
                        | None =>
                          match set_option o4 "loud_accents"
                                  (join ", " (map loud_accents records)) with
                          | Raise x => Raise x
                          | Ok o5 =>
                            read_options o5 ([] : dict (value number))
                          end
                        end
                      end
                    end
                  end
                end
              end
            end
          end).
  rewrite !set_option_checked. simpl existsb.
  destruct (invalid_interpolation (pretty (_global_transposition self)));
    [reflexivity|].
  simpl dict_get. rewrite set_option_checked.
  destruct (invalid_interpolation (num_str (_tempo self))); [reflexivity|].
  simpl dict_get. rewrite set_option_checked.
  destruct (invalid_interpolation (join ", " (map midiNotes records)));
    [reflexivity|].
  simpl dict_get. rewrite set_option_checked.
  destruct (invalid_interpolation (join ", " (map rhythm records)));
    [reflexivity|].
  simpl dict_get. rewrite set_option_checked.
  by destruct (invalid_interpolation (join ", " (map loud_accents records))).
Qed.

(** The two sections are assigned when the six values pass the check;
    otherwise the assignment raises a [ValueError]. *)
Lemma score_config_outcome self records :
  score_config self records
  = if existsb invalid_interpolation (written_values self records)
    then Raise (OtherException "ValueError")
    else Ok (assigned_config self records).
Proof.
  unfold score_config. rewrite add_lyric_section_outcome.
  unfold written_values.
  change (existsb invalid_interpolation
            (xsampa records
             :: [ pretty (_global_transposition self); num_str (_tempo self);
                  join ", " (map midiNotes records);
                  join ", " (map rhythm records);
                  join ", " (map loud_accents records) ]))
    with (invalid_interpolation (xsampa records)
          || existsb invalid_interpolation
               [ pretty (_global_transposition self); num_str (_tempo self);
                 join ", " (map midiNotes records);
                 join ", " (map rhythm records);
                 join ", " (map loud_accents records) ]).
  destruct (invalid_interpolation (xsampa records)); [reflexivity|].
  rewrite add_score_section_outcome, orb_false_l.
  by destruct (existsb invalid_interpolation _).
Qed.

Lemma score_config_Ok self records (config : ConfigParser) :
  score_config self records = Ok config →
  config = assigned_config self records
  ∧ Forall (fun v => invalid_interpolation v = false)
      (written_values self records).
Proof.
  rewrite score_config_outcome.
  destruct (existsb invalid_interpolation (written_values self records))
    eqn:Hvalues; [discriminate|].
  intros [= <-]. split; [reflexivity|].
  apply Forall_forall. intros v Hv.
  destruct (invalid_interpolation v) eqn:Hinvalid; [|reflexivity].
  assert (existsb invalid_interpolation (written_values self records) = true);
    [|congruence].
  apply existsb_exists. exists v. split; [by apply list_elem_of_In | exact Hinvalid].
Qed.

Lemma score_config_Raise self records x :
  score_config self records = Raise x →
  x = OtherException "ValueError"
  ∧ Exists (fun v => invalid_interpolation v = true)
      (written_values self records).
Proof.
  rewrite score_config_outcome.
  destruct (existsb invalid_interpolation (written_values self records))
    eqn:Hvalues; [|discriminate].
  intros [= <-]. split; [reflexivity|].
  apply existsb_exists in Hvalues as (v & Hv & Hinvalid).
  apply Exists_exists. exists v. split; [by apply list_elem_of_In | exact Hinvalid].
Qed.

(** Joining groups that are joined themselves is joining all tokens. *)
Lemma join_cons_cons (sep x y : string) (l : list string) :
  join sep (x :: y :: l) = x +:+ sep +:+ join sep (y :: l).
Proof. reflexivity. Qed.

Lemma string_app_assoc (s1 s2 s3 : string) :
  s1 +:+ s2 +:+ s3 = (s1 +:+ s2) +:+ s3.
Proof.
  induction s1 as [|a s1 IH]; [reflexivity|].
  change (String a (s1 +:+ s2 +:+ s3) = String a ((s1 +:+ s2) +:+ s3)).
  by rewrite IH.
Qed.

Lemma join_app (sep : string) (l1 l2 : list string) :
  l1 ≠ [] → l2 ≠ [] →
  join sep (l1 ++ l2) = join sep l1 +:+ sep +:+ join sep l2.
Proof.
  intros Hl1 Hl2. induction l1 as [|x l1 IH]; [done|].
  destruct l1 as [|y l1].
  - destruct l2 as [|z l2]; [done|]. reflexivity.
  - change ((x :: y :: l1) ++ l2) with (x :: y :: (l1 ++ l2)).
    rewrite !join_cons_cons.
    change (y :: l1 ++ l2) with ((y :: l1) ++ l2).
    rewrite IH; [|done]. by rewrite <- !string_app_assoc.
Qed.

Lemma join_groups (sep : string) (groups : list (list string)) :
  Forall (fun group => group ≠ []) groups →
  join sep (map (join sep) groups) = join sep (concat groups).
Proof.
  induction 1 as [|group groups Hgroup Hgroups IH]; [reflexivity|].
  destruct groups as [|group' groups].
  - simpl. by rewrite app_nil_r.
  - change (map (join sep) (group :: group' :: groups))
      with (join sep group :: join sep group' :: map (join sep) groups).
    rewrite join_cons_cons.
    change (join sep group' :: map (join sep) groups)
      with (map (join sep) (group' :: groups)).
    rewrite IH. change (concat (group :: group' :: groups))
      with (group ++ concat (group' :: groups)).
    rewrite join_app; [reflexivity | exact Hgroup |].
    apply Forall_cons in Hgroups as [Hgroup' _].
    simpl. destruct group'; [done | discriminate].
Qed.

(** The lyrics of the source are the lyrics of the specification. *)
Lemma xsampa_is_xsampa_spec records : xsampa records = xsampa_spec records.
Proof.
  unfold xsampa, xsampa_spec, xsampa_tokens, lyric_group.
  rewrite <- join_groups.
  - by rewrite map_map.
  - apply Forall_map. apply Forall_forall. intros d _.
    simpl. destruct (ed_consonant_tuple d); discriminate.
Qed.

(** A rest gives the single token "_". *)
Lemma lyric_group_rest (d : number) :
  lyric_group (_extracted_data_dict_rest d) = "_".
Proof. reflexivity. Qed.

(** The simple events of a flat sequence. *)
Lemma simple_events_flat (l : list (SimpleEvent number)) :
  simple_events (Sequential (map Simple l)) = l.
Proof. induction l as [|e l IH]; simpl in *; congruence. Qed.


(** What [convert] returns, by the walk, the sections and the path. *)
Lemma score_converter_outcome self (ev : Event number) path w :
  IsisScoreConverter_convert self ev path w
  = match _convert_event self (tie_rests self ev) with
    | Raise x => (Raise x, w)
    | Ok records =>
      if existsb invalid_interpolation (written_values self records)
      then (Raise (OtherException "ValueError"), w)
      else (if decide (path ∈ unwritable w)
            then (Raise (OtherException "OSError"), w)
            else (Ok (), write_file path
                           (write_config (assigned_config self records)) w))
    end.
Proof.
  unfold IsisScoreConverter_convert.
  destruct (_convert_event self (tie_rests self ev)) as [records|x];
    [|reflexivity].
  rewrite score_config_outcome.
  by destruct (existsb invalid_interpolation (written_values self records)).
Qed.

(** A [convert] that returns has walked the event, assigned both sections
    and written the file. *)
Lemma score_converter_Ok self (ev : Event number) path w w' :
  IsisScoreConverter_convert self ev path w = (Ok (), w') →
  ∃ records config,
    _convert_event self (tie_rests self ev) = Ok records
    ∧ score_config self records = Ok config
    ∧ (path ∉ unwritable w)
    ∧ w' = write_file path (write_config config) w.
Proof.
  rewrite score_converter_outcome.
  destruct (_convert_event self (tie_rests self ev)) as [records|x];
    [|discriminate].
  destruct (existsb invalid_interpolation (written_values self records))
    eqn:Hvalues; [discriminate|].
  destruct (decide (path ∈ unwritable w)) as [|Hpath]; [discriminate|].
  intros [= <-]. exists records, (assigned_config self records).
  rewrite score_config_outcome, Hvalues. by repeat split.
Qed.

(** A [convert] that raises leaves the world as it was. *)
Lemma score_converter_Raise self (ev : Event number) path w x w' :
  IsisScoreConverter_convert self ev path w = (Raise x, w') → w' = w.
Proof.
  rewrite score_converter_outcome.
  destruct (_convert_event self (tie_rests self ev)) as [records|y];
    [|congruence].
  destruct (existsb invalid_interpolation (written_values self records));
    [congruence|].
  destruct (decide (path ∈ unwritable w)); [congruence | discriminate].
Qed.

(** C4: for an event of which the walk returns the records, the lyric
    groups and the entries of midiNotes, rhythm and loud_accents are as
    many as the simple events that are left after the tie pass; when the
    sections are assigned, the emitted values are the joins of these
    lists, and when [convert] returns, the file holds them. *)
Theorem C4_record_counts_agree self (ev : Event number) records :
  _convert_event self (tie_rests self ev) = Ok records →
  length (map lyric_group records) = length (simple_events (tie_rests self ev))
  ∧ length (map midiNotes records) = length (simple_events (tie_rests self ev))
  ∧ length (map rhythm records) = length (simple_events (tie_rests self ev))
  ∧ length (map loud_accents records)
    = length (simple_events (tie_rests self ev))
  ∧ (∀ config : ConfigParser,
       score_config self records = Ok config →
       getitem config SECTION_LYRIC_NAME "xsampa"
       = Some (join " " (map lyric_group records))
       ∧ getitem config SECTION_SCORE_NAME "midiNotes"
         = Some (join ", " (map midiNotes records))
       ∧ getitem config SECTION_SCORE_NAME "rhythm"
         = Some (join ", " (map rhythm records))
       ∧ getitem config SECTION_SCORE_NAME "loud_accents"
         = Some (join ", " (map loud_accents records)))
  ∧ (∀ path w w',
       IsisScoreConverter_convert self ev path w = (Ok (), w') →
       ∃ config : ConfigParser,
         score_config self records = Ok config
         ∧ files w' !! path = Some (write_config config))
  ∧ ∀ tied, tie_rests self ev = Sequential (map Simple tied) →
            length records = length tied.
Proof.
  intros Hok. pose proof (convert_event_length _ _ _ Hok) as Hlength.
  rewrite !length_map. do 4 (split; [exact Hlength|]).
  split; [|split].
  - intros config Hconfig. apply score_config_Ok in Hconfig as [-> _].
    repeat split.
  - intros path w w' Hconvert.
    apply score_converter_Ok in Hconvert
      as (records' & config & Hok' & Hconfig & _ & ->).
    rewrite Hok in Hok'. injection Hok' as <-.
    exists config. split; [exact Hconfig|]. apply lookup_insert_eq.
  - intros tied Htied. rewrite Hlength, Htied. by rewrite simple_events_flat.
Qed.

(** C7 as the code has it: when the six values pass the interpolation
    check of the parser, the score section holds exactly five options,
    which the parser keeps and writes in lower case, globaltransposition,
    tempo, midinotes, rhythm and loud_accents, and finds under the names
    globalTransposition, tempo, midiNotes, rhythm and loud_accents; tempo
    and globalTransposition are the configured values, the three lists
    have one entry for each record, joined by a comma and a space, and
    the written text separates key and value by a colon.  When a value
    does not pass the check, the assignment raises a [ValueError] and
    [convert] writes nothing. *)
Theorem C7_score_section self records :
  (∀ config : ConfigParser,
     score_config self records = Ok config →
     options_of config SECTION_SCORE_NAME
     = ["globaltransposition"; "tempo"; "midinotes"; "rhythm"; "loud_accents"]
     ∧ options_of config SECTION_SCORE_NAME
       = map optionxform
           ["globalTransposition"; "tempo"; "midiNotes"; "rhythm";
            "loud_accents"]
     ∧ getitem config SECTION_SCORE_NAME "globalTransposition"
       = Some (pretty (_global_transposition self))
     ∧ getitem config SECTION_SCORE_NAME "tempo"
       = Some (num_str (_tempo self))
     ∧ getitem config SECTION_SCORE_NAME "midiNotes"
       = Some (join ", "
                 (map (fun d => num_str (midi_pitch_number (ed_pitch d)))
                      records))
     ∧ getitem config SECTION_SCORE_NAME "rhythm"
       = Some (join ", " (map (fun d => num_str (ed_duration d)) records))
     ∧ getitem config SECTION_SCORE_NAME "loud_accents"
       = Some (join ", "
                 (map (fun d => num_str (amplitude (ed_volume d))) records))
     ∧ _delimiters config = ":"
     ∧ write_config config
       = score_text (xsampa records)
           (pretty (_global_transposition self))
           (num_str (_tempo self))
           (join ", " (map midiNotes records))
           (join ", " (map rhythm records))
           (join ", " (map loud_accents records)))
  ∧ (Forall (fun v => invalid_interpolation v = false)
       (written_values self records) →
     ∃ config : ConfigParser, score_config self records = Ok config)
  ∧ (Exists (fun v => invalid_interpolation v = true)
       (written_values self records) →
     score_config self records = Raise (OtherException "ValueError")
     ∧ ∀ (ev : Event number) path w,
         _convert_event self (tie_rests self ev) = Ok records →
         IsisScoreConverter_convert self ev path w
         = (Raise (OtherException "ValueError"), w))
  ∧ (∀ (ev : Event number) path w (config : ConfigParser),
       _convert_event self (tie_rests self ev) = Ok records →
       score_config self records = Ok config →
       path ∉ unwritable w →
       IsisScoreConverter_convert self ev path w
       = (Ok (), write_file path
                   (score_text (xsampa records)
                      (pretty (_global_transposition self))
                      (num_str (_tempo self))
                      (join ", " (map midiNotes records))
                      (join ", " (map rhythm records))
                      (join ", " (map loud_accents records)))
                   w)).
Proof.
  split; [|split; [|split]].
  - intros config Hconfig. apply score_config_Ok in Hconfig as [-> _].
    repeat split.
  - intros Hvalid. exists (assigned_config self records).
    rewrite score_config_outcome.
    destruct (existsb invalid_interpolation (written_values self records))
      eqn:Hvalues; [|reflexivity].
    apply existsb_exists in Hvalues as (v & Hv & Hinvalid).
    apply list_elem_of_In in Hv.
    rewrite Forall_forall in Hvalid. rewrite (Hvalid v Hv) in Hinvalid.
    discriminate.
  - intros Hinvalid.
    assert (Hvalues : existsb invalid_interpolation
                        (written_values self records) = true).
    { apply Exists_exists in Hinvalid as (v & Hv & Hinvalid).
      apply existsb_exists. exists v.
      split; [by apply list_elem_of_In | exact Hinvalid]. }
    split.
    + by rewrite score_config_outcome, Hvalues.
    + intros ev path w Hok. by rewrite score_converter_outcome, Hok, Hvalues.
  - intros ev path w config Hok Hconfig Hpath.
    rewrite score_config_outcome in Hconfig.
    rewrite score_converter_outcome, Hok.
    destruct (existsb invalid_interpolation (written_values self records));
      [discriminate|].
    by destruct (decide (path ∈ unwritable w)).
Qed.

End Score.

(** ** Rendering with the external program *)

Section Rendering.
Context {number : Type} `{PyNumber number}.
Implicit Types (self : IsisConverter number) (ev : Event number).
Implicit Types (run : string → gmap string string → gmap string string * Z).

Lemma string_app_nil_r (s : string) : s +:+ "" = s.
Proof.
  induction s as [|a s IH]; [reflexivity|].
  change (String a (s +:+ "") = String a s). by rewrite IH.
Qed.

Lemma concat_pieces_cons (piece : string) (pieces : list string) :
  String.concat "" (piece :: pieces) = piece +:+ String.concat "" pieces.
Proof.
  destruct pieces; [|reflexivity]. simpl. by rewrite string_app_nil_r.
Qed.

(** The command of the source is the command of the specification. *)
Lemma command_of_is_command_spec (flag : list string) (score_path path : string) :
  command_of flag score_path path = command_spec flag score_path path.
Proof.
  unfold command_of, command_spec.
  generalize (ISIS_PATH +:+ " -m " +:+ score_path +:+ " -o " +:+ path).
  induction flag as [|f flag IH]; intros command.
  - simpl. by rewrite string_app_nil_r.
  - change (map (fun f0 => " " +:+ f0 +:+ " ") (f :: flag))
      with ((" " +:+ f +:+ " ") :: map (fun f0 => " " +:+ f0 +:+ " ") flag).
    rewrite concat_pieces_cons. simpl. rewrite IH.
    by rewrite <- !string_app_assoc.
Qed.

(** C8 as the code has it: when the score converter returns for the path
    with the suffix [.isis_score], it has written the score there, and
    [convert] hands one command to the system, the program with [-m], the
    score path, [-o], the path and then the flags in their order, goes on
    when the command has ended, removes the score file afterwards when
    [remove_score_file] is set and leaves it when not, the default; the
    exit status of the command has no part in the result; a score file
    that the program has removed makes the removal raise.  When the score
    converter raises, its exception is passed on, no command is run and
    nothing is removed. *)
Theorem C8_render_through_isis run self ev path w :
  (∀ w1,
     IsisScoreConverter_convert (isis_score_converter self) ev
       (path +:+ ".isis_score") w = (Ok (), w1) →
     let score_path := path +:+ ".isis_score" in
     let command := command_spec (flags self) score_path path in
     let w2 := {| files := fst (run command (files w1));
                  commands := commands w ++ [command];
                  unwritable := unwritable w |} in
     (∃ (records : list (ExtractedDataDict number)) (config : ConfigParser),
        _convert_event (isis_score_converter self)
          (tie_rests (isis_score_converter self) ev) = Ok records
        ∧ score_config (isis_score_converter self) records = Ok config
        ∧ w1 = write_file score_path (write_config config) w
        ∧ files w1 !! score_path = Some (write_config config))
     ∧ IsisConverter_convert run self ev path w
       = (if remove_score_file self then os_remove score_path w2
          else (Ok (), w2))
     ∧ (remove_score_file self = false →
        IsisConverter_convert run self ev path w = (Ok (), w2))
     ∧ (remove_score_file self = true →
        is_Some (files w2 !! score_path) →
        IsisConverter_convert run self ev path w
        = (Ok (), {| files := delete score_path (files w2);
                     commands := commands w ++ [command];
                     unwritable := unwritable w |}))
     ∧ (remove_score_file self = true →
        files w2 !! score_path = None →
        IsisConverter_convert run self ev path w
        = (Raise FileNotFoundError, w2)))
  ∧ (∀ x w1,
       IsisScoreConverter_convert (isis_score_converter self) ev
         (path +:+ ".isis_score") w = (Raise x, w1) →
       IsisConverter_convert run self ev path w = (Raise x, w))
  ∧ (∀ run',
       (∀ c fs, fst (run' c fs) = fst (run c fs)) →
       IsisConverter_convert run' self ev path w
       = IsisConverter_convert run self ev path w)
  ∧ (∀ (score_converter : IsisScoreConverter number) flag,
       remove_score_file (new_IsisConverter score_converter flag) = false).
Proof.
  assert (Hconvert : ∀ run0 w1,
            IsisScoreConverter_convert (isis_score_converter self) ev
              (path +:+ ".isis_score") w = (Ok (), w1) →
            IsisConverter_convert run0 self ev path w
            = if remove_score_file self
              then os_remove (path +:+ ".isis_score")
                     {| files := fst (run0 (command_spec (flags self)
                                              (path +:+ ".isis_score") path)
                                        (files w1));
                        commands := commands w
                                    ++ [command_spec (flags self)
                                          (path +:+ ".isis_score") path];
                        unwritable := unwritable w |}
              else (Ok (),
                    {| files := fst (run0 (command_spec (flags self)
                                             (path +:+ ".isis_score") path)
                                       (files w1));
                       commands := commands w
                                   ++ [command_spec (flags self)
                                         (path +:+ ".isis_score") path];
                       unwritable := unwritable w |})).
  { intros run0 w1 Hscore. unfold IsisConverter_convert, score_path_of.
    rewrite Hscore, command_of_is_command_spec.
    apply score_converter_Ok in Hscore as (records & config & _ & _ & _ & ->).
    reflexivity. }
  split; [|split; [|split]].
  - intros w1 Hscore score_path command w2.
    split.
    { destruct (score_converter_Ok _ _ _ _ _ Hscore)
        as (records & config & Hok & Hconfig & _ & ->).
      exists records, config. repeat split; try done.
      apply lookup_insert_eq. }
    split; [by apply Hconvert|].
    split; [intros Hkeep; rewrite (Hconvert run w1 Hscore), Hkeep; reflexivity|].
    split.
    + intros Hremove [content Hcontent].
      rewrite (Hconvert run w1 Hscore), Hremove.
      subst w2 command score_path. simpl in Hcontent. unfold os_remove.
      cbn [files commands unwritable]. by rewrite Hcontent.
    + intros Hremove Hgone.
      rewrite (Hconvert run w1 Hscore), Hremove.
      subst w2 command score_path. simpl in Hgone. unfold os_remove.
      cbn [files commands unwritable]. by rewrite Hgone.
  - intros x w1 Hscore. unfold IsisConverter_convert, score_path_of.
    rewrite Hscore. by rewrite (score_converter_Raise _ _ _ _ _ _ Hscore).
  - intros run' Hsame. unfold IsisConverter_convert, os_system.
    destruct (IsisScoreConverter_convert (isis_score_converter self) ev
                (score_path_of path) w) as [[[]|x] w1]; [|reflexivity].
    simpl. by rewrite Hsame.
  - reflexivity.
Qed.

End Rendering.

(** ** The events of the tests *)

(** C2 at an event that the default predicate classifies as a rest by its
    empty pitch list and whose other attributes are present: the default
    pitch getter raises an index error, no rest record is produced and
    [convert] writes nothing. *)
Theorem C2_empty_pitch_list_raises_index_error :
  default_is_simple_event_rest test_empty_pitch_list = true
  ∧ _convert_simple_event default_score_converter test_empty_pitch_list
    = Raise IndexError
  ∧ IsisScoreConverter_convert default_score_converter
      (Simple test_empty_pitch_list) "isis-score.cfg" empty_world
    = (Raise IndexError, empty_world).
Proof. repeat split. Qed.


(** C5: in a sequence of simple events, a run of events that the rest
    predicate classifies as rests, with no rest right before or after it,
    becomes one event, the first of the run with the sum of the durations
    of the run, when the predicate does not look at the duration, as the
    default predicate; the events of the test, a note of duration 2, rests
    of durations 4 and 3 and a note of duration 2, are written with the
    rhythm "2, 7, 2" and the lyrics "t a _ t a". *)
Theorem C5_runs_of_rests_are_tied :
  (∀ (number : Type) (Hnumber : PyNumber number)
     (self : IsisScoreConverter number)
     (before : list (SimpleEvent number)) (first : SimpleEvent number)
     (others after : list (SimpleEvent number)),
     ignores_duration (_is_simple_event_rest self) →
     Forall (fun e => _is_simple_event_rest self e = true) (first :: others) →
     (∀ e, last before = Some e → _is_simple_event_rest self e = false) →
     (∀ e, head after = Some e → _is_simple_event_rest self e = false) →
     tie_rests self
       (Sequential (map Simple (before ++ first :: others ++ after)))
     = Sequential
         (tie_children (both_rest self) (map Simple before)
          ++ Simple (set_duration first (duration_sum first others))
             :: tie_children (both_rest self) (map Simple after)))
  ∧ (∀ (number : Type) (Hnumber : PyNumber number),
       ignores_duration (@default_is_simple_event_rest number))
  ∧ tie_rests default_score_converter test_sequential_event
    = Sequential
        [ Simple test_note; Simple (bare_event (PyInt 7)); Simple test_note ]
  ∧ _convert_event default_score_converter
      (tie_rests default_score_converter test_sequential_event)
    = Ok test_records
  ∧ (∃ config : ConfigParser,
       score_config default_score_converter test_records = Ok config
       ∧ getitem config SECTION_SCORE_NAME "rhythm" = Some "2, 7, 2"
       ∧ getitem config SECTION_LYRIC_NAME "xsampa" = Some "t a _ t a")
  ∧ IsisScoreConverter_convert default_score_converter
      test_sequential_event "isis-score.cfg" empty_world
    = (Ok (),
       write_file "isis-score.cfg"
         (score_text "t a _ t a" "0" "60" "60.0, 0.0, 60.0" "2, 7, 2"
            "1, 0, 1")
         empty_world).
Proof.
  split; [intros; by apply tie_rests_run|].
  split; [intros; apply default_rest_ignores_duration|].
  split; [reflexivity|]. split; [reflexivity|].
  split.
  - exists (assigned_config default_score_converter test_records).
    repeat split.
  - rewrite score_converter_outcome.
    change (_convert_event default_score_converter
              (tie_rests default_score_converter test_sequential_event))
      with (Ok test_records).
    change (existsb invalid_interpolation
              (written_values default_score_converter test_records))
      with false.
    cbv iota. rewrite decide_False; [reflexivity|].
    apply not_elem_of_empty.
Qed.

(** C6 as the code has it: the value of the one key xsampa is the tokens
    of all records in order, the consonants of a record before its vowel,
    joined by single spaces, and a rest gives the token "_"; the lyrics
    section is assigned with this one key and this stored value when the
    value passes the interpolation check of the parser, and the assignment
    raises a value error when it does not; the stored value is written as
    it is; one event with the consonants
    ("t",) and the vowel "a" gives "t a". *)
Theorem C6_lyrics_section :
  (∀ (number : Type) (Hnumber : PyNumber number)
     (self : IsisScoreConverter number) (config : ConfigParser)
     (records : list (ExtractedDataDict number)),
     xsampa records = xsampa_spec records
     ∧ (invalid_interpolation (xsampa_spec records) = false →
        ∃ config' : ConfigParser,
          _add_lyric_section self config records = Ok config'
          ∧ options_of config' SECTION_LYRIC_NAME = ["xsampa"]
          ∧ getitem config' SECTION_LYRIC_NAME "xsampa"
            = Some (xsampa_spec records))
     ∧ (invalid_interpolation (xsampa_spec records) = true →
        _add_lyric_section self config records
        = Raise (OtherException "ValueError")))
  ∧ (∀ (number : Type) (Hnumber : PyNumber number)
       (self : IsisScoreConverter number)
       (records : list (ExtractedDataDict number)) (config' : ConfigParser),
       _add_lyric_section self (new_ConfigParser ":") records = Ok config' →
       write_config config'
       = String.concat ""
           [ "[lyrics]" +:+ line_break;
             score_line "xsampa" (xsampa_spec records);
             line_break ])
  ∧ (∀ (number : Type) (Hnumber : PyNumber number) (d : number),
       lyric_group (_extracted_data_dict_rest d) = "_")
  ∧ _convert_event default_score_converter (Simple test_note)
    = Ok [test_note_record]
  ∧ (∃ config : ConfigParser,
       score_config default_score_converter [test_note_record] = Ok config
       ∧ getitem config SECTION_LYRIC_NAME "xsampa" = Some "t a"
       ∧ options_of config SECTION_LYRIC_NAME = ["xsampa"]).
Proof.
  split.
  { intros number Hnumber self config records.
    split; [apply xsampa_is_xsampa_spec|].
    rewrite add_lyric_section_outcome, xsampa_is_xsampa_spec.
    split; intros ->; [|reflexivity].
    eexists. split; [reflexivity|].
    unfold options_of, getitem. simpl _sections.
    rewrite dict_get_update. by split. }
  split.
  { intros number Hnumber self records config'.
    rewrite add_lyric_section_outcome, xsampa_is_xsampa_spec.
    destruct (invalid_interpolation (xsampa_spec records)); [discriminate|].
    intros [= <-]. reflexivity. }
  split; [reflexivity|]. split; [reflexivity|].
  exists (assigned_config default_score_converter [test_note_record]).
  repeat split.
Qed.

(** C6 as the specification states it fails: the vowel of the record is
    the mark of the secondary stress, the value "t %" does not pass the
    interpolation check of the parser, and the assignment of the lyrics
    section raises a value error; [convert] writes nothing. *)
Lemma C6_percent_token_is_refused :
  xsampa_spec [test_percent_record] = "t %"
  ∧ _add_lyric_section default_score_converter (new_ConfigParser ":")
      [test_percent_record]
    = Raise (OtherException "ValueError")
  ∧ _convert_event default_score_converter
      (tie_rests default_score_converter (Simple test_percent_note))
    = Ok [test_percent_record]
  ∧ IsisScoreConverter_convert default_score_converter
      (Simple test_percent_note) "isis-score.cfg" empty_world
    = (Raise (OtherException "ValueError"), empty_world).
Proof. repeat split. Qed.

(** C7 as the specification states it fails: the options of the emitted
    score section are the names in lower case, not the names that the
    claim lists, and so are the keys of the written lines. *)
Lemma C7_emitted_keys_are_lower_case :
  ∃ config : ConfigParser,
    score_config default_score_converter [test_note_record] = Ok config
    ∧ options_of config SECTION_SCORE_NAME
      = ["globaltransposition"; "tempo"; "midinotes"; "rhythm"; "loud_accents"]
    ∧ options_of config SECTION_SCORE_NAME
      ≠ ["globalTransposition"; "tempo"; "midiNotes"; "rhythm"; "loud_accents"]
    ∧ write_config config
      = String.concat ""
          [ "[lyrics]" +:+ line_break;
            "xsampa : t a" +:+ line_break;
            line_break;
            "[score]" +:+ line_break;
            "globaltransposition : 0" +:+ line_break;
            "tempo : 60" +:+ line_break;
            "midinotes : 60.0" +:+ line_break;
            "rhythm : 2" +:+ line_break;
            "loud_accents : 1" +:+ line_break;
            line_break ].
Proof.
  exists (assigned_config default_score_converter [test_note_record]).
  repeat split. discriminate.
Qed.

(** C8 as the specification states it fails: the second event of the
    sequence has an empty pitch list, the score converter raises the index
    error of the default pitch getter, and [convert] passes it on: no
    score file is written and no command is run. *)
Lemma C8_failed_score_runs_nothing :
  IsisConverter_convert example_run
    (new_IsisConverter default_score_converter [SILENT_FLAG])
    (Sequential [Simple test_note; Simple test_empty_pitch_list])
    "voice" empty_world
  = (Raise IndexError, empty_world)
  ∧ files (snd (IsisConverter_convert example_run
                  (new_IsisConverter default_score_converter [SILENT_FLAG])
                  (Sequential [Simple test_note; Simple test_empty_pitch_list])
                  "voice" empty_world))
    !! "voice.isis_score" = None
  ∧ commands (snd (IsisConverter_convert example_run
                     (new_IsisConverter default_score_converter [SILENT_FLAG])
                     (Sequential
                        [Simple test_note; Simple test_empty_pitch_list])
                     "voice" empty_world))
    = [].
Proof. repeat split. Qed.

(** C10 as the specification states it fails: an event with an empty
    pitch list that lacks the consonants does not reach the pitch getter;
    the first getter raises the missing-attribute condition and the rest
    record is returned, no index error. *)
Lemma C10_empty_pitch_list_can_give_rest :
  pitch_list test_empty_pitch_list_only = Some []
  ∧ default_simple_event_to_pitch test_empty_pitch_list_only = Raise IndexError
  ∧ _convert_simple_event default_score_converter test_empty_pitch_list_only
    = Ok [_extracted_data_dict_rest (PyInt 3)]
  ∧ _convert_simple_event default_score_converter test_empty_pitch_list_only
    ≠ Raise IndexError.
Proof. repeat split. discriminate. Qed.

(** ** The statements at the events of the tests *)

(** A bare event lacks the consonants: the first getter raises the
    missing-attribute condition and the rest record is returned. *)
Lemma C1_witness_bare_event :
  raises_during_extraction default_score_converter (bare_event (PyInt 3))
    AttributeError
  ∧ _convert_simple_event default_score_converter (bare_event (PyInt 3))
    = Ok [_extracted_data_dict_rest (PyInt 3)].
Proof.
  assert (Hraise : raises_during_extraction default_score_converter
                     (bare_event (PyInt 3)) AttributeError).
  { exists [], [Raised AttributeError; Raised AttributeError;
                Raised AttributeError].
    split; [reflexivity | constructor]. }
  split; [exact Hraise|].
  exact (proj1 (C1_missing_attribute_gives_rest_record
                  default_score_converter (bare_event (PyInt 3)) Hraise)).
Defined.


(** Three records for the three events that are left of the four. *)
Lemma C4_witness_sequential_event :
  _convert_event default_score_converter
    (tie_rests default_score_converter test_sequential_event)
  = Ok test_records
  ∧ length (map lyric_group test_records) = 3
  ∧ length (map rhythm test_records) = 3.
Proof.
  assert (Hok : _convert_event default_score_converter
                  (tie_rests default_score_converter test_sequential_event)
                = Ok test_records) by reflexivity.
  split; [exact Hok|].
  destruct (C4_record_counts_agree default_score_converter
              test_sequential_event test_records Hok)
    as (Hlyrics & _ & Hrhythm & _).
  split; [exact Hlyrics | exact Hrhythm].
Defined.

(** The rests of durations 4 and 3 between the two notes. *)
Lemma C5_witness_sequential_event :
  tie_rests default_score_converter
    (Sequential (map Simple ([test_note] ++ bare_event (PyInt 4)
                             :: [test_empty_pitch_list] ++ [test_note])))
  = Sequential
      (tie_children (both_rest default_score_converter) (map Simple [test_note])
       ++ Simple (set_duration (bare_event (PyInt 4))
                    (duration_sum (bare_event (PyInt 4))
                       [test_empty_pitch_list]))
          :: tie_children (both_rest default_score_converter)
               (map Simple [test_note])).
Proof.
  apply (proj1 C5_runs_of_rests_are_tied small_number _
           default_score_converter [test_note] (bare_event (PyInt 4))
           [test_empty_pitch_list] [test_note]).
  - intros e d. reflexivity.
  - repeat constructor.
  - intros e He. injection He as <-. reflexivity.
  - intros e He. injection He as <-. reflexivity.
Defined.

(** The lyrics section of the one note of the tests. *)
Lemma C6_witness_one_note :
  invalid_interpolation (xsampa_spec [test_note_record]) = false
  ∧ ∃ config : ConfigParser,
      _add_lyric_section default_score_converter (new_ConfigParser ":")
        [test_note_record] = Ok config
      ∧ options_of config SECTION_LYRIC_NAME = ["xsampa"]
      ∧ getitem config SECTION_LYRIC_NAME "xsampa"
        = Some (xsampa_spec [test_note_record]).
Proof.
  split; [reflexivity|].
  exact (proj1 (proj2 (proj1 C6_lyrics_section small_number _
                         default_score_converter (new_ConfigParser ":")
                         [test_note_record]))
           eq_refl).
Defined.

(** The score section of the one note of the tests. *)
Lemma C7_witness_one_note :
  score_config default_score_converter [test_note_record]
  = Ok (assigned_config default_score_converter [test_note_record])
  ∧ options_of (assigned_config default_score_converter [test_note_record])
      SECTION_SCORE_NAME
    = ["globaltransposition"; "tempo"; "midinotes"; "rhythm"; "loud_accents"].
Proof.
  assert (Hconfig : score_config default_score_converter [test_note_record]
                    = Ok (assigned_config default_score_converter
                            [test_note_record])) by reflexivity.
  split; [exact Hconfig|].
  exact (proj1 (proj1 (C7_score_section default_score_converter
                         [test_note_record])
                  _ Hconfig)).
Defined.

(** The sequential event of the tests rendered with the flag [--quiet],
    by a program that writes one sound file. *)
Lemma C8_witness_quiet_render :
  IsisScoreConverter_convert default_score_converter test_sequential_event
    ("voice" +:+ ".isis_score") empty_world
  = (Ok (),
     write_file "voice.isis_score"
       (write_config (assigned_config default_score_converter test_records))
       empty_world)
  ∧ IsisConverter_convert example_run
      (new_IsisConverter default_score_converter [SILENT_FLAG])
      test_sequential_event "voice" empty_world
    = (Ok (),
       {| files :=
            fst (example_run
                   (command_spec [SILENT_FLAG] "voice.isis_score" "voice")
                   (files (write_file "voice.isis_score"
                             (write_config
                                (assigned_config default_score_converter
                                   test_records))
                             empty_world)));
          commands :=
            commands empty_world
            ++ [command_spec [SILENT_FLAG] "voice.isis_score" "voice"];
          unwritable := unwritable empty_world |}).
Proof.
  assert (Hscore : IsisScoreConverter_convert default_score_converter
                     test_sequential_event ("voice" +:+ ".isis_score")
                     empty_world
                   = (Ok (),
                      write_file "voice.isis_score"
                        (write_config
                           (assigned_config default_score_converter
                              test_records))
                        empty_world)).
  { rewrite score_converter_outcome.
    change (_convert_event default_score_converter
              (tie_rests default_score_converter test_sequential_event))
      with (Ok test_records).
    change (existsb invalid_interpolation
              (written_values default_score_converter test_records))
      with false.
    cbv iota. rewrite decide_False; [reflexivity|].
    apply not_elem_of_empty. }
  split; [exact Hscore|].
  destruct (proj1 (C8_render_through_isis example_run
                     (new_IsisConverter default_score_converter [SILENT_FLAG])
                     test_sequential_event "voice" empty_world)
              _ Hscore)
    as (_ & _ & Hkeep & _).
  exact (Hkeep eq_refl).
Defined.

(** The tied sequence of the tests is left as it is. *)
Lemma C9_witness_tied_sequence :
  adjacent_rests (_is_simple_event_rest default_score_converter)
    [test_note; bare_event (PyInt 7); test_note] = false
  ∧ tie_rests default_score_converter
      (Sequential (map Simple [test_note; bare_event (PyInt 7); test_note]))
    = Sequential (map Simple [test_note; bare_event (PyInt 7); test_note]).
Proof.
  split; [reflexivity|].
  apply (C9_tie_of_tied_sequence_is_identity default_score_converter
           [test_note; bare_event (PyInt 7); test_note]).
  reflexivity.
Defined.

(** The index error of the empty pitch list is not the missing-attribute
    condition and leaves the converter. *)
Lemma C10_witness_index_error :
  IndexError ≠ AttributeError
  ∧ raises_during_extraction default_score_converter test_empty_pitch_list
      IndexError
  ∧ _convert_simple_event default_score_converter test_empty_pitch_list
    = Raise IndexError.
Proof.
  assert (Hne : IndexError ≠ AttributeError) by discriminate.
  assert (Hraise : raises_during_extraction default_score_converter
                     test_empty_pitch_list IndexError).
  { exists [Returned; Returned], [Returned].
    split; [reflexivity | repeat constructor]. }
  split; [exact Hne|]. split; [exact Hraise|].
  exact (proj1 (C10_other_exceptions_propagate default_score_converter
                  test_empty_pitch_list IndexError Hne) Hraise).
Defined.

(** * Further properties of the converters *)

(** ** The default extraction functions *)

Section DefaultExtraction.
Context {number : Type} `{PyNumber number}.
Implicit Types (self : IsisScoreConverter number) (e : SimpleEvent number).
Implicit Types (l : list (SimpleEvent number)).
Implicit Types (records : list (ExtractedDataDict number)).

(** With the default functions an event becomes the rest record when its
    pitch list, its consonants or its vowel are missing, and also when its
    volume is missing unless the pitch list is empty: a note that lacks
    one of its attributes is written as a rest without any notice. *)
Theorem default_incomplete_event_becomes_rest e :
  pitch_list e = None ∨ consonant_tuple e = None ∨ vowel e = None
  ∨ (volume e = None ∧ pitch_list e ≠ Some []) →
  _convert_simple_event default_score_converter e
  = Ok [_extracted_data_dict_rest (duration e)].
Proof.
  unfold _convert_simple_event. simpl.
  unfold default_simple_event_to_consonant_tuple, default_simple_event_to_vowel,
    default_simple_event_to_pitch, default_simple_event_to_volume.
  destruct (consonant_tuple e) as [c|], (vowel e) as [v|],
    (pitch_list e) as [[|p ps]|], (volume e) as [vol|];
    simpl; try reflexivity; intros [?|[?|[?|[? ?]]]]; congruence.
Qed.

(** The duration of a record is the duration of its event, whatever the
    extraction functions return or raise. *)
Lemma convert_simple_event_duration self e records :
  _convert_simple_event self e = Ok records →
  map ed_duration records = [duration e].
Proof.
  intros Hok.
  destruct (convert_simple_event_cases self e)
    as [(c & v & p & vol & _ & _ & _ & _ & Hr) | [[_ Hr] | (x & _ & _ & Hr)]];
    rewrite Hr in Hok; by simplify_eq.
Qed.

Lemma convert_event_durations self (ev : Event number) :
  ∀ records, _convert_event self ev = Ok records →
             map ed_duration records = map duration (simple_events ev).
Proof.
  induction ev as [e|children IH|children IH] using Event_nested_ind;
    intros records Hok.
  - simpl in *. by apply convert_simple_event_duration in Hok.
  - revert records Hok. induction IH as [|child children Hchild _ IHchildren];
      intros records Hok.
    + by simplify_eq/=.
    + rewrite convert_sequential_cons in Hok.
      rewrite simple_events_sequential_cons.
      destruct (_convert_event self child) as [r|]; [|discriminate].
      destruct (_convert_event self (Sequential children)) as [r'|];
        [|discriminate].
      simplify_eq. rewrite !map_app.
      by rewrite (Hchild r), (IHchildren r').
  - discriminate.
Qed.

(** The rhythm of the score is the durations of the tied events in their
    order, for every choice of extraction functions: durations are never
    extracted, replaced or reordered. *)
Theorem rhythm_is_the_durations_of_the_tied_events self (ev : Event number)
    records :
  _convert_event self (tie_rests self ev) = Ok records →
  map ed_duration records = map duration (simple_events (tie_rests self ev))
  ∧ join ", " (map rhythm records)
    = join ", " (map (fun e => num_str (duration e))
                     (simple_events (tie_rests self ev)))
  ∧ (∀ config : ConfigParser,
       score_config self records = Ok config →
       getitem config SECTION_SCORE_NAME "rhythm"
       = Some (join ", " (map (fun e => num_str (duration e))
                              (simple_events (tie_rests self ev)))))
  ∧ (∀ path w w',
       IsisScoreConverter_convert self ev path w = (Ok (), w') →
       ∃ config : ConfigParser,
         files w' !! path = Some (write_config config)
         ∧ getitem config SECTION_SCORE_NAME "rhythm"
           = Some (join ", " (map (fun e => num_str (duration e))
                                  (simple_events (tie_rests self ev))))).
Proof.
  intros Hok. pose proof (convert_event_durations _ _ _ Hok) as Hdurations.
  assert (Hrhythm : join ", " (map rhythm records)
                    = join ", " (map (fun e => num_str (duration e))
                                     (simple_events (tie_rests self ev)))).
  { f_equal. unfold rhythm.
    rewrite <- (map_map ed_duration num_str), Hdurations. by rewrite map_map. }
  assert (Hvalue : ∀ config : ConfigParser,
            score_config self records = Ok config →
            getitem config SECTION_SCORE_NAME "rhythm"
            = Some (join ", " (map (fun e => num_str (duration e))
                                   (simple_events (tie_rests self ev))))).
  { intros config Hconfig. apply score_config_Ok in Hconfig as [-> _].
    rewrite <- Hrhythm. reflexivity. }
  split; [exact Hdurations|]. split; [exact Hrhythm|].
  split; [exact Hvalue|].
  intros path w w' Hconvert.
  destruct (score_converter_Ok _ _ _ _ _ Hconvert)
    as (records' & config & Hok' & Hconfig & _ & ->).
  rewrite Hok in Hok'. injection Hok' as <-.
  exists config. split; [apply lookup_insert_eq | by apply Hvalue].
Qed.

End DefaultExtraction.

(** ** The tie pass and the records *)

Section TiedRecords.
Context {number : Type} `{PyNumber number}.
Implicit Types (self : IsisScoreConverter number) (e : SimpleEvent number).
Implicit Types (l tied : list (SimpleEvent number)).
Implicit Types (records : list (ExtractedDataDict number)).

Lemma tie_adjacent_length
    (condition : SimpleEvent number → SimpleEvent number → bool)
    (ev : Event number) (children : list (Event number)) :
  length (tie_adjacent condition ev children) ≤ S (length children).
Proof.
  revert ev. induction children as [|next children IH]; intros ev; simpl;
    [lia|].
  destruct ev as [e0| |], next as [e1| |]; try destruct (condition e0 e1);
    simpl;
    match goal with
    | |- context [tie_adjacent condition ?current children] =>
      specialize (IH current)
    end; lia.
Qed.

(** What the tie pass is for: after it no two neighbours of a sequence of
    simple events are both rests, and no event has been added, for a rest
    predicate that does not look at the duration. *)
Theorem tie_rests_leaves_no_adjacent_rests self l :
  ignores_duration (_is_simple_event_rest self) →
  ∃ tied,
    tie_rests self (Sequential (map Simple l)) = Sequential (map Simple tied)
    ∧ adjacent_rests (_is_simple_event_rest self) tied = false
    ∧ length tied ≤ length l.
Proof.
  intros Hignore. destruct l as [|e l].
  { exists []. split; [reflexivity|]. split; [reflexivity|]. simpl. lia. }
  destruct (tie_adjacent_tied self e l Hignore) as (d & tied & Heq & Hnone).
  exists (set_duration e d :: tied).
  assert (Htied : tie_rests self (Sequential (map Simple (e :: l)))
                  = Sequential (map Simple (set_duration e d :: tied))).
  { unfold tie_rests. simpl. rewrite tie_by_simple_children.
    f_equal. exact Heq. }
  split; [exact Htied|]. split; [exact Hnone|].
  pose proof (tie_adjacent_length (both_rest self) (Simple e) (map Simple l))
    as Hlen.
  rewrite Heq in Hlen. rewrite !length_map in Hlen. simpl in *. lia.
Qed.

(** A sequence in which no event is a rest is not changed by the pass. *)
Lemma tie_rests_without_rests self l :
  Forall (fun e => _is_simple_event_rest self e = false) l →
  tie_rests self (Sequential (map Simple l)) = Sequential (map Simple l).
Proof.
  intros Hnotes. unfold tie_rests. simpl. rewrite tie_by_simple_children.
  f_equal. destruct l as [|e l]; [reflexivity|].
  apply tie_adjacent_no_adjacent_rests.
  induction Hnotes as [|e0 l0 He0 Hl0 IH]; [reflexivity|].
  destruct l0 as [|e1 l0]; [reflexivity|].
  change (adjacent_rests (_is_simple_event_rest self) (e0 :: e1 :: l0))
    with ((_is_simple_event_rest self e0 && _is_simple_event_rest self e1)
          || adjacent_rests (_is_simple_event_rest self) (e1 :: l0)).
  by rewrite He0, IH.
Qed.

(** The pass ties by the rest predicate, the extraction falls back by the
    missing attribute: with the default functions a bare event followed by
    a note that has pitches but lacks its vowel, its consonants or its
    volume is not tied, and the score gets two rest records in a row. *)
Theorem untied_rest_records (d : number) e :
  default_is_simple_event_rest e = false →
  vowel e = None ∨ consonant_tuple e = None ∨ volume e = None →
  tie_rests default_score_converter
    (Sequential [Simple (bare_event d); Simple e])
  = Sequential [Simple (bare_event d); Simple e]
  ∧ _convert_event default_score_converter
      (tie_rests default_score_converter
         (Sequential [Simple (bare_event d); Simple e]))
    = Ok [_extracted_data_dict_rest d; _extracted_data_dict_rest (duration e)]
  ∧ xsampa [_extracted_data_dict_rest d; _extracted_data_dict_rest (duration e)]
    = "_ _".
Proof.
  intros Hnote Hmissing.
  assert (Htie : tie_rests default_score_converter
                   (Sequential [Simple (bare_event d); Simple e])
                 = Sequential [Simple (bare_event d); Simple e]).
  { unfold tie_rests. simpl. unfold both_rest. simpl. by rewrite Hnote. }
  split; [exact Htie|]. split; [|reflexivity].
  rewrite Htie. rewrite convert_sequential_cons.
  change (_convert_event default_score_converter (Simple (bare_event d)))
    with (Ok [_extracted_data_dict_rest d]
          : result (list (ExtractedDataDict number))).
  rewrite convert_sequential_cons.
  change (_convert_event default_score_converter (Simple e))
    with (_convert_simple_event default_score_converter e).
  assert (Hrest : _convert_simple_event default_score_converter e
                  = Ok [_extracted_data_dict_rest (duration e)]).
  { unfold default_is_simple_event_rest in Hnote.
    unfold _convert_simple_event. simpl.
    unfold default_simple_event_to_consonant_tuple,
      default_simple_event_to_vowel, default_simple_event_to_pitch,
      default_simple_event_to_volume.
    destruct (consonant_tuple e) as [c|], (vowel e) as [v|],
      (pitch_list e) as [[|p ps]|], (volume e) as [vol|];
      simpl in *; try reflexivity; try discriminate;
      destruct Hmissing as [?|[?|?]]; congruence. }
  by rewrite Hrest.
Qed.

End TiedRecords.

(** ** Whole conversions *)

Section WholeConversions.
Context {number : Type} `{PyNumber number}.
Implicit Types (self : IsisScoreConverter number) (e : SimpleEvent number).
Implicit Types (ev : Event number) (l : list (SimpleEvent number)).
Implicit Types (records : list (ExtractedDataDict number)).

(** With the default functions a sequence of complete notes, each with
    consonants, vowel, volume and at least one pitch, is written record by
    record: nothing is tied, every note gives the record of its own
    attributes, and of its pitches the first one alone is used. *)
Theorem default_conversion_of_notes l records path w :
  Forall2 (fun e r =>
             ∃ consonants vowel_ pitch pitches volume_,
               consonant_tuple e = Some consonants
               ∧ vowel e = Some vowel_
               ∧ pitch_list e = Some (pitch :: pitches)
               ∧ volume e = Some volume_
               ∧ r = extracted_record (duration e) consonants vowel_ pitch
                       volume_)
          l records →
  tie_rests default_score_converter (Sequential (map Simple l))
  = Sequential (map Simple l)
  ∧ _convert_event default_score_converter
      (tie_rests default_score_converter (Sequential (map Simple l)))
    = Ok records
  ∧ (∀ config : ConfigParser,
       score_config default_score_converter records = Ok config →
       path ∉ unwritable w →
       IsisScoreConverter_convert default_score_converter
         (Sequential (map Simple l)) path w
       = (Ok (), write_file path (write_config config) w)).
Proof.
  intros Hnotes.
  assert (Htie : tie_rests default_score_converter (Sequential (map Simple l))
                 = Sequential (map Simple l)).
  { apply tie_rests_without_rests.
    induction Hnotes as [|e r l records (c & v & p & ps & vol & Hc & Hv & Hp & _)
                            _ IH]; constructor; [|exact IH].
    simpl. unfold default_is_simple_event_rest. by rewrite Hp. }
  assert (Hwalk : _convert_event default_score_converter
                    (Sequential (map Simple l)) = Ok records).
  { clear Htie.
    induction Hnotes as [|e r l records
                            (c & v & p & ps & vol & Hc & Hv & Hp & Hvol & ->)
                            _ IH]; [reflexivity|].
    change (map Simple (e :: l)) with (Simple e :: map Simple l).
    rewrite convert_sequential_cons, IH.
    change (_convert_event default_score_converter (Simple e))
      with (_convert_simple_event default_score_converter e).
    unfold _convert_simple_event. simpl.
    unfold default_simple_event_to_consonant_tuple,
      default_simple_event_to_vowel, default_simple_event_to_pitch,
      default_simple_event_to_volume.
    by rewrite Hc, Hv, Hp, Hvol. }
  split; [exact Htie|]. rewrite Htie. split; [exact Hwalk|].
  intros config Hconfig Hpath.
  unfold IsisScoreConverter_convert, open_and_write.
  rewrite Htie, Hwalk, Hconfig. by rewrite decide_False.
Qed.

(** One event on which an extraction function raises another exception
    than the missing-attribute condition ends the whole conversion: the
    exception of the first such event among the tied events reaches the
    caller, and no file is written, however many events convert. *)
Theorem first_failing_event_ends_the_conversion self ev
    (before after : list (SimpleEvent number)) e x path w :
  tie_rests self ev = Sequential (map Simple (before ++ e :: after)) →
  Forall (fun e' => ∃ records, _convert_simple_event self e' = Ok records)
    before →
  _convert_simple_event self e = Raise x →
  IsisScoreConverter_convert self ev path w = (Raise x, w).
Proof.
  intros Htied Hbefore Hraise.
  unfold IsisScoreConverter_convert. rewrite Htied.
  assert (Hwalk : _convert_event self
                    (Sequential (map Simple (before ++ e :: after)))
                  = Raise x); [|by rewrite Hwalk].
  clear Htied. induction Hbefore as [|e0 before [r Hr] _ IH].
  - change (map Simple ([] ++ e :: after))
      with (Simple e :: map Simple after).
    rewrite convert_sequential_cons.
    change (_convert_event self (Simple e)) with (_convert_simple_event self e).
    by rewrite Hraise.
  - change (map Simple ((e0 :: before) ++ e :: after))
      with (Simple e0 :: map Simple (before ++ e :: after)).
    rewrite convert_sequential_cons, IH.
    change (_convert_event self (Simple e0))
      with (_convert_simple_event self e0).
    by rewrite Hr.
Qed.


(** The values of a score are put together from the values of its parts:
    the lyrics with a space, the three lists with a comma and a space. *)
Theorem score_values_of_joined_records records records' :
  records ≠ [] → records' ≠ [] →
  xsampa (records ++ records') = xsampa records +:+ " " +:+ xsampa records'
  ∧ join ", " (map midiNotes (records ++ records'))
    = join ", " (map midiNotes records) +:+ ", "
      +:+ join ", " (map midiNotes records')
  ∧ join ", " (map rhythm (records ++ records'))
    = join ", " (map rhythm records) +:+ ", "
      +:+ join ", " (map rhythm records')
  ∧ join ", " (map loud_accents (records ++ records'))
    = join ", " (map loud_accents records) +:+ ", "
      +:+ join ", " (map loud_accents records').
Proof.
  intros Hrecords Hrecords'.
  assert (Hmap : ∀ (f : ExtractedDataDict number → string) sep,
            join sep (map f (records ++ records'))
            = join sep (map f records) +:+ sep +:+ join sep (map f records')).
  { intros f sep. rewrite map_app. apply join_app.
    - by destruct records.
    - by destruct records'. }
  repeat split; apply Hmap.
Qed.

End WholeConversions.

(** ** The external program and the score file *)

Section ScoreFile.
Context {number : Type} `{PyNumber number}.
Implicit Types (self : IsisConverter number) (ev : Event number).
Implicit Types (run : string → gmap string string → gmap string string * Z).
Implicit Types (records : list (ExtractedDataDict number)).

(** The score path is never the path of the sound file. *)
Lemma string_app_ne (s suffix : string) : suffix ≠ "" → s +:+ suffix ≠ s.
Proof.
  intros Hsuffix. induction s as [|a s IH].
  - exact Hsuffix.
  - change (String a (s +:+ suffix) ≠ String a s). congruence.
Qed.

Lemma score_path_of_ne (path : string) : score_path_of path ≠ path.
Proof. apply string_app_ne. discriminate. Qed.


(** With [remove_score_file], after a score converter that has returned,
    the score file does not exist, whether the removal succeeded or not;
    the command has been run once, every other file, the sound file among
    them, is as the program left it, and when the program itself removed
    the score file, [os.remove] fails and the caller gets a
    [FileNotFoundError] in spite of the rendering. *)
Theorem removed_score_file_is_gone run self ev path w w1 :
  remove_score_file self = true →
  IsisScoreConverter_convert (isis_score_converter self) ev
    (score_path_of path) w = (Ok (), w1) →
  let score_path := score_path_of path in
  let command := command_of (flags self) score_path path in
  let rendered := fst (run command (files w1)) in
  files w1 !! score_path ≠ None
  ∧ files (snd (IsisConverter_convert run self ev path w)) !! score_path = None
  ∧ commands (snd (IsisConverter_convert run self ev path w))
    = commands w ++ [command]
  ∧ (∀ other, other ≠ score_path →
       files (snd (IsisConverter_convert run self ev path w)) !! other
       = rendered !! other)
  ∧ files (snd (IsisConverter_convert run self ev path w)) !! path
    = rendered !! path
  ∧ (rendered !! score_path = None →
     fst (IsisConverter_convert run self ev path w) = Raise FileNotFoundError)
  ∧ (is_Some (rendered !! score_path) →
     fst (IsisConverter_convert run self ev path w) = Ok ()).
Proof.
  intros Hremove Hscore score_path command rendered.
  unfold IsisConverter_convert. rewrite Hscore, Hremove.
  destruct (score_converter_Ok _ _ _ _ _ Hscore)
    as (records & config & _ & _ & _ & Hw1).
  split.
  { rewrite Hw1. unfold write_file. cbn [files].
    fold score_path. by rewrite lookup_insert_eq. }
  assert (Hcommands : commands w1 = commands w) by (by rewrite Hw1).
  unfold os_remove, os_system. cbn [snd files commands unwritable].
  fold score_path. fold command. fold rendered. rewrite Hcommands.
  assert (Hpath : path ≠ score_path).
  { intros Heq. by apply (score_path_of_ne path). }
  destruct (rendered !! score_path) as [content|] eqn:Hrendered;
    cbn [fst snd files commands].
  - split; [apply lookup_delete_eq|]. split; [reflexivity|].
    split; [intros other Hother; by apply lookup_delete_ne|].
    split; [by apply lookup_delete_ne|].
    split; [discriminate | reflexivity].
  - split; [exact Hrendered|]. split; [reflexivity|].
    split; [reflexivity|]. split; [reflexivity|].
    split; [reflexivity|]. intros [? ?]. discriminate.
Qed.

End ScoreFile.

(** ** Sequences of rests *)

Section Rests.
Context {number : Type} `{PyNumber number}.
Implicit Types (e first : SimpleEvent number).
Implicit Types (others : list (SimpleEvent number)).

(** The default conversion of an event, by its attributes. *)
Lemma default_conversion_by_attributes e :
  _convert_simple_event default_score_converter e
  = match consonant_tuple e, vowel e, pitch_list e, volume e with
    | Some consonants, Some vowel_, Some (pitch :: _), Some volume_ =>
      Ok [extracted_record (duration e) consonants vowel_ pitch volume_]
    | Some _, Some _, Some [], _ => Raise IndexError
    | _, _, _, _ => Ok [_extracted_data_dict_rest (duration e)]
    end.
Proof.
  unfold _convert_simple_event. simpl.
  unfold default_simple_event_to_consonant_tuple, default_simple_event_to_vowel,
    default_simple_event_to_pitch, default_simple_event_to_volume.
  by destruct (consonant_tuple e) as [c|], (vowel e) as [v|],
    (pitch_list e) as [[|p ps]|], (volume e) as [vol|].
Qed.

(** A sequence that consists of rests is tied into one event, its first
    event with the sum of the durations, and is converted as that event:
    to one rest record when the first event lacks its pitch list, its
    consonants or its vowel, but to an index error when the first event
    has them with an empty pitch list, whatever the later events are. *)
Theorem sequence_of_rests_converts_by_its_first_event first others :
  Forall (fun e => default_is_simple_event_rest e = true) (first :: others) →
  tie_rests default_score_converter (Sequential (map Simple (first :: others)))
  = Sequential [Simple (set_duration first (duration_sum first others))]
  ∧ (pitch_list first = None ∨ consonant_tuple first = None
     ∨ vowel first = None →
     _convert_event default_score_converter
       (tie_rests default_score_converter
          (Sequential (map Simple (first :: others))))
     = Ok [_extracted_data_dict_rest (duration_sum first others)])
  ∧ (pitch_list first = Some [] → consonant_tuple first ≠ None →
     vowel first ≠ None →
     _convert_event default_score_converter
       (tie_rests default_score_converter
          (Sequential (map Simple (first :: others))))
     = Raise IndexError).
Proof.
  intros Hrests.
  pose proof (tie_rests_run default_score_converter [] first others []
                default_rest_ignores_duration Hrests) as Hrun.
  rewrite app_nil_r in Hrun. simpl in Hrun.
  assert (Htie : tie_rests default_score_converter
                   (Sequential (Simple first :: map Simple others))
                 = Sequential
                     [Simple (set_duration first (duration_sum first others))]).
  { apply Hrun; intros e He; discriminate. }
  change (map Simple (first :: others))
    with (Simple first :: map Simple others).
  split; [exact Htie|]. rewrite Htie.
  rewrite convert_sequential_cons.
  change (_convert_event default_score_converter
            (Simple (set_duration first (duration_sum first others))))
    with (_convert_simple_event default_score_converter
            (set_duration first (duration_sum first others))).
  rewrite default_conversion_by_attributes. simpl.
  split.
  - intros Hmissing.
    destruct (consonant_tuple first) as [c|], (vowel first) as [v|],
      (pitch_list first) as [[|p ps]|], (volume first) as [vol|];
      try reflexivity;
      try (apply Forall_cons in Hrests as [Hfirst _]; discriminate);
      destruct Hmissing as [?|[?|?]]; discriminate.
  - intros Hempty Hc Hv. rewrite Hempty.
    by destruct (consonant_tuple first), (vowel first).
Qed.

End Rests.

(** ** The further properties at the events of the tests *)

Lemma default_incomplete_event_becomes_rest_witness :
  (volume test_note_without_volume = None
   ∧ pitch_list test_note_without_volume ≠ Some [])
  ∧ _convert_simple_event default_score_converter test_note_without_volume
    = Ok [_extracted_data_dict_rest (PyInt 2)].
Proof.
  assert (Hmissing : volume test_note_without_volume = None
                     ∧ pitch_list test_note_without_volume ≠ Some []).
  { split; [reflexivity | discriminate]. }
  split; [exact Hmissing|].
  apply (default_incomplete_event_becomes_rest test_note_without_volume).
  right. right. right. exact Hmissing.
Defined.

Lemma rhythm_is_the_durations_witness :
  _convert_event default_score_converter
    (tie_rests default_score_converter test_sequential_event)
  = Ok test_records
  ∧ map ed_duration test_records = [PyInt 2; PyInt 7; PyInt 2].
Proof.
  assert (Hok : _convert_event default_score_converter
                  (tie_rests default_score_converter test_sequential_event)
                = Ok test_records) by reflexivity.
  split; [exact Hok|].
  exact (proj1 (rhythm_is_the_durations_of_the_tied_events
                  default_score_converter test_sequential_event test_records
                  Hok)).
Defined.

Lemma tie_rests_leaves_no_adjacent_rests_witness :
  ignores_duration
    (_is_simple_event_rest (@default_score_converter small_number _))
  ∧ ∃ tied,
      tie_rests default_score_converter test_sequential_event
      = Sequential (map Simple tied)
      ∧ adjacent_rests (_is_simple_event_rest default_score_converter) tied
        = false
      ∧ length tied ≤ 4.
Proof.
  assert (Hignore : ignores_duration
            (_is_simple_event_rest (@default_score_converter small_number _))).
  { intros e d. reflexivity. }
  split; [exact Hignore|].
  exact (tie_rests_leaves_no_adjacent_rests default_score_converter
           [test_note; bare_event (PyInt 4); test_empty_pitch_list; test_note]
           Hignore).
Defined.

Lemma untied_rest_records_witness :
  default_is_simple_event_rest test_note_without_volume = false
  ∧ volume test_note_without_volume = None
  ∧ _convert_event default_score_converter
      (tie_rests default_score_converter
         (Sequential [Simple (bare_event (PyInt 4));
                      Simple test_note_without_volume]))
    = Ok [_extracted_data_dict_rest (PyInt 4);
          _extracted_data_dict_rest (PyInt 2)].
Proof.
  split; [reflexivity|]. split; [reflexivity|].
  exact (proj1 (proj2 (untied_rest_records (PyInt 4) test_note_without_volume
                         eq_refl (or_intror (or_intror eq_refl))))).
Defined.

Lemma default_conversion_of_notes_witness :
  score_config default_score_converter [test_note_record; test_note_record]
  = Ok (assigned_config default_score_converter
          [test_note_record; test_note_record])
  ∧ ("isis-score.cfg" ∉ unwritable empty_world)
  ∧ IsisScoreConverter_convert default_score_converter
      (Sequential (map Simple [test_note; test_note])) "isis-score.cfg"
      empty_world
    = (Ok (), write_file "isis-score.cfg"
                (write_config
                   (assigned_config default_score_converter
                      [test_note_record; test_note_record]))
                empty_world).
Proof.
  assert (Hconfig : score_config default_score_converter
                      [test_note_record; test_note_record]
                    = Ok (assigned_config default_score_converter
                            [test_note_record; test_note_record]))
    by reflexivity.
  assert (Hpath : "isis-score.cfg" ∉ unwritable empty_world)
    by apply not_elem_of_empty.
  split; [exact Hconfig|]. split; [exact Hpath|].
  refine (proj2 (proj2 (default_conversion_of_notes [test_note; test_note]
                          [test_note_record; test_note_record]
                          "isis-score.cfg" empty_world _))
            _ Hconfig Hpath).
  repeat constructor;
    exists ["t"], "a", WesternPitch_c4, [], (DirectVolume (PyInt 1));
    repeat split.
Defined.

Lemma first_failing_event_witness :
  _convert_simple_event strict_volume_converter test_note_without_volume
  = Raise (OtherException "ValueError")
  ∧ IsisScoreConverter_convert strict_volume_converter
      (Sequential [Simple test_note; Simple test_note_without_volume;
                   Simple test_note])
      "isis-score.cfg" empty_world
    = (Raise (OtherException "ValueError"), empty_world).
Proof.
  split; [reflexivity|].
  apply (first_failing_event_ends_the_conversion strict_volume_converter
           (Sequential [Simple test_note; Simple test_note_without_volume;
                        Simple test_note])
           [test_note] [test_note] test_note_without_volume).
  - reflexivity.
  - constructor; [|constructor]. by eexists.
  - reflexivity.
Defined.


Lemma score_values_of_joined_records_witness :
  xsampa ([test_note_record] ++ [_extracted_data_dict_rest (PyInt 7)])
  = xsampa [test_note_record] +:+ " "
    +:+ xsampa [_extracted_data_dict_rest (PyInt 7)].
Proof.
  refine (proj1 (score_values_of_joined_records [test_note_record]
                   [_extracted_data_dict_rest (PyInt 7)] _ _));
    discriminate.
Defined.


Lemma removed_score_file_is_gone_witness :
  IsisScoreConverter_convert default_score_converter test_sequential_event
    (score_path_of "voice") empty_world
  = (Ok (),
     write_file "voice.isis_score"
       (write_config (assigned_config default_score_converter test_records))
       empty_world)
  ∧ files (snd (IsisConverter_convert example_run
                  {| isis_score_converter := default_score_converter;
                     flags := [SILENT_FLAG];
                     remove_score_file := true |}
                  test_sequential_event "voice" empty_world))
    !! "voice.isis_score" = None.
Proof.
  assert (Hscore : IsisScoreConverter_convert default_score_converter
                     test_sequential_event (score_path_of "voice") empty_world
                   = (Ok (),
                      write_file "voice.isis_score"
                        (write_config
                           (assigned_config default_score_converter
                              test_records))
                        empty_world)).
  { rewrite score_converter_outcome.
    change (_convert_event default_score_converter
              (tie_rests default_score_converter test_sequential_event))
      with (Ok test_records).
    change (existsb invalid_interpolation
              (written_values default_score_converter test_records))
      with false.
    cbv iota. rewrite decide_False; [reflexivity|].
    apply not_elem_of_empty. }
  split; [exact Hscore|].
  exact (proj1 (proj2 (removed_score_file_is_gone example_run
                         {| isis_score_converter := default_score_converter;
                            flags := [SILENT_FLAG];
                            remove_score_file := true |}
                         test_sequential_event "voice" empty_world _
                         eq_refl Hscore))).
Defined.

Lemma sequence_of_rests_witness :
  Forall (fun e => default_is_simple_event_rest e = true)
    [bare_event (PyInt 4); test_empty_pitch_list]
  ∧ tie_rests default_score_converter
      (Sequential (map Simple [bare_event (PyInt 4); test_empty_pitch_list]))
    = Sequential [Simple (bare_event (PyInt 7))].
Proof.
  assert (Hrests : Forall (fun e => default_is_simple_event_rest e = true)
                     [bare_event (PyInt 4); test_empty_pitch_list]).
  { repeat constructor. }
  split; [exact Hrests|].
  exact (proj1 (sequence_of_rests_converts_by_its_first_event
                  (bare_event (PyInt 4)) [test_empty_pitch_list] Hrests)).
Defined.
